(** * Room bookkeeping and grant issuance of the LiveKit backend

    A shallow embedding of [database.py], [schemas.py], [livekit_service.py]
    and the request handlers of [main.py], followed by the properties of the
    access-grant model and of the room / membership state machine.

    Conventions.
    - Python [int] and SQL [Integer] are [Z]; [str] is [string];
      [Optional[T]] and nullable columns are [option T].
    - A table is the list of its rows in insertion order; a query is a
      [filter] over it, [.first()] is [head], [.count()] is [length].
    - A handler is a computation over the store that either returns a body
      or raises; every handler commits at most once and cannot raise after
      its first write, so the store it leaves is the committed one.
    - Timestamps are integers; the instant [NOW()] observed by a request is
      an argument of the handlers that stamp rows.
    - The schema classes are plain records (the run-time validation done by
      the web framework on request and response bodies is not part of the
      embedding). *)

From stdpp Require Import base option list strings gmap pretty.

Open Scope string_scope.
Open Scope list_scope.
Open Scope Z_scope.

(** ** Exceptions and results *)

Inductive exn : Type :=
| HTTPException (status_code : Z) (detail : string)
| ValueError (msg : string)
| Exception (msg : string).

Inductive result (A : Type) : Type :=
| Return (a : A)
| Raise (e : exn).
Arguments Return {A} a.
Arguments Raise {A} e.

#[global] Instance result_ret : MRet result := λ A (a : A), Return a.

#[global] Instance result_bind : MBind result :=
  λ A B (k : A → result B) (m : result A),
    match m with
    | Return a => k a
    | Raise e => Raise e
    end.

(** [try: body / except Exception as e: handler e] *)
Definition try_except {A : Type} (body : result A) (handler : exn → result A)
    : result A :=
  match body with
  | Return a => Return a
  | Raise e => handler e
  end.

Definition HTTP_400_BAD_REQUEST : Z := 400.
Definition HTTP_403_FORBIDDEN : Z := 403.
Definition HTTP_404_NOT_FOUND : Z := 404.

(** ** database.py: the three tables *)

Module User.
Record t : Type := mk {
  id : Z;
  username : string;
  email : string;
  hashed_password : string;
  is_active : bool;
  created_at : Z
}.
End User.

Module Room.
Record t : Type := mk {
  id : Z;
  name : string;
  display_name : string;
  description : option string;
  creator_id : Z;
  is_active : bool;
  max_participants : option Z;
  created_at : Z
}.

(** [room.is_active = v] *)
Definition set_is_active (v : bool) (r : t) : t :=
  mk (id r) (name r) (display_name r) (description r) (creator_id r) v
     (max_participants r) (created_at r).
End Room.

Module RoomMembership.
Record t : Type := mk {
  id : Z;
  user_id : Z;
  room_id : Z;
  joined_at : Z;
  left_at : option Z;
  is_active : bool
}.

(** [membership.is_active = v] *)
Definition set_is_active (v : bool) (m : t) : t :=
  mk (id m) (user_id m) (room_id m) (joined_at m) (left_at m) v.

(** [membership.left_at = v] *)
Definition set_left_at (v : option Z) (m : t) : t :=
  mk (id m) (user_id m) (room_id m) (joined_at m) v (is_active m).
End RoomMembership.

Module DB.
Record t : Type := mk {
  users : list User.t;
  rooms : list Room.t;
  room_memberships : list RoomMembership.t
}.

Definition empty : t := mk [] [] [].
End DB.

(** The value an autoincrementing primary key takes for the next row: no
    row is ever removed, so it lies above every key handed out so far. *)
Definition next_id (ids : list Z) : Z := 1 + foldr Z.max 0 ids.

(** ** schemas.py *)

Module UserCreate.
Record t : Type := mk { username : string; email : string; password : string }.
End UserCreate.

Module UserResponse.
Record t : Type := mk {
  id : Z; username : string; email : string; is_active : bool; created_at : Z
}.
End UserResponse.

Module RoomCreate.
Record t : Type := mk {
  name : string;
  display_name : string;
  description : option string;
  max_participants : option Z
}.
End RoomCreate.

Module RoomResponse.
Record t : Type := mk {
  id : Z;
  name : string;
  display_name : string;
  description : option string;
  creator_id : Z;
  is_active : bool;
  max_participants : option Z;
  created_at : Z;
  participant_count : option Z
}.
End RoomResponse.

Module Permission.
Record t : Type := mk {
  can_publish : bool; can_subscribe : bool; can_publish_data : bool
}.
End Permission.

Module RoomParticipant.
Record t : Type := mk {
  identity : string;
  name : string;
  metadata : string;
  num_tracks : Z;
  permission : Permission.t
}.
End RoomParticipant.

Module RoomWithParticipants.
Record t : Type := mk {
  room : RoomResponse.t;
  participants : list RoomParticipant.t
}.
End RoomWithParticipants.

(** ** The media platform's SDK, as far as the service drives it *)

(** The keyword arguments of [api.VideoGrants]; an argument the caller does
    not pass stays [None].  A capability is granted when its flag is
    [Some true]. *)
Module VideoGrants.
Record t : Type := mk {
  room_create : option bool;
  room_list : option bool;
  room_join : option bool;
  room_admin : option bool;
  room : option string;
  can_publish : option bool;
  can_subscribe : option bool;
  can_publish_data : option bool
}.

Definition grants (flag : option bool) : bool :=
  match flag with Some true => true | _ => false end.
End VideoGrants.

(** The claims an [api.AccessToken] accumulates through its [with_*]
    builders; a builder that is never called leaves its claim [None]. *)
Module Claims.
Record t : Type := mk {
  identity : option string;
  name : option string;
  metadata : option string;
  video : option VideoGrants.t
}.

Definition empty : t := mk None None None None.
End Claims.

Module AccessToken.
Record t : Type := mk {
  api_key : option string;
  api_secret : option string;
  claims : Claims.t
}.

(** [api.AccessToken(api_key, api_secret)] *)
Definition new (api_key api_secret : option string) : t :=
  mk api_key api_secret Claims.empty.

Definition with_identity (identity : string) (tok : t) : t :=
  let c := claims tok in
  mk (api_key tok) (api_secret tok)
     (Claims.mk (Some identity) (Claims.name c) (Claims.metadata c) (Claims.video c)).

Definition with_name (name : string) (tok : t) : t :=
  let c := claims tok in
  mk (api_key tok) (api_secret tok)
     (Claims.mk (Claims.identity c) (Some name) (Claims.metadata c) (Claims.video c)).

Definition with_metadata (metadata : string) (tok : t) : t :=
  let c := claims tok in
  mk (api_key tok) (api_secret tok)
     (Claims.mk (Claims.identity c) (Claims.name c) (Some metadata) (Claims.video c)).

Definition with_grants (g : VideoGrants.t) (tok : t) : t :=
  let c := claims tok in
  mk (api_key tok) (api_secret tok)
     (Claims.mk (Claims.identity c) (Claims.name c) (Claims.metadata c) (Some g)).
End AccessToken.

(** What a participant listed by the platform carries. *)
Module ParticipantInfo.
Record t : Type := mk {
  identity : string;
  name : string;
  metadata : string;
  tracks : list string;
  permission : Permission.t
}.
End ParticipantInfo.

(** The media platform as one request sees it: what each call of
    [api.RoomService] the gateway can make does, return or raise (network
    failure, unknown room, ...).  [remote_room] is whatever the platform
    answers for a room. *)
Module Platform.
Record t (remote_room : Type) : Type := mk {
  get_room : string → result remote_room;
  list_participants : string → result (list ParticipantInfo.t);
  create_room : string → option Z → result remote_room;
  delete_room : string → result unit
}.
Arguments get_room {remote_room} _ _.
Arguments list_participants {remote_room} _ _.
Arguments create_room {remote_room} _ _ _.
Arguments delete_room {remote_room} _ _.
End Platform.

(** ** Python truthiness *)

(** Truth value of an [Optional[str]]: [None] and [""] are false. *)
Definition truthy (v : option string) : bool :=
  match v with
  | Some s => negb (String.eqb s "")
  | None => false
  end.

(** A value is absent when it is unset or empty, i.e. not [truthy]. *)
Definition absent (v : option string) : Prop := v = None ∨ v = Some "".

(** The argument as the builders see it: the string when it is supplied and
    non-empty, nothing otherwise. *)
Definition supplied (v : option string) : option string :=
  if truthy v then v else None.

(** ** A reference codec for signed tokens

    Used to exhibit a signer / verifier pair: the token is the signed
    object itself and verification compares secrets. *)
Module Reference.
Definition to_jwt (tok : AccessToken.t) : AccessToken.t := tok.

Definition verify (secret : string) (jwt : AccessToken.t) : option Claims.t :=
  match AccessToken.api_secret jwt with
  | Some s => if String.eqb s secret then Some (AccessToken.claims jwt) else None
  | None => None
  end.

Definition get_password_hash (password : string) : string := "$hash$" +:+ password.
End Reference.

(** ** livekit_service.py *)

Module LiveKitService.
Record t : Type := mk {
  api_key : option string;
  api_secret : option string;
  livekit_url : option string
}.


Section Signer.
(** [AccessToken.to_jwt] of the platform SDK: the signed, encoded token. *)
Context {jwt : Type} (to_jwt : AccessToken.t → jwt).

Definition create_access_token (self : t) (room_name participant_identity : string)
    (participant_name metadata : option string) : jwt :=
  let token := AccessToken.new (api_key self) (api_secret self) in
  let token := AccessToken.with_identity participant_identity token in
  let token :=
    match participant_name with
    | Some n => if negb (String.eqb n "") then AccessToken.with_name n token else token
    | None => token
    end in
  let token :=
    match metadata with
    | Some md => if negb (String.eqb md "") then AccessToken.with_metadata md token else token
    | None => token
    end in
  let token := AccessToken.with_grants
    (VideoGrants.mk None None (Some true) None (Some room_name)
                    (Some true) (Some true) (Some true)) token in
  to_jwt token.
End Signer.

Section Gateway.
Context {remote_room : Type} (platform : Platform.t remote_room).

(** Returns the dict [{"room": ..., "participants": ...}], or [None]. *)
Definition get_room_info (self : t) (room_name : string)
    : result (option (remote_room * list ParticipantInfo.t)) :=
  try_except
    (room_info ← Platform.get_room platform room_name;
     participants ← Platform.list_participants platform room_name;
     mret (Some (room_info, participants)))
    (λ e, mret None).

Definition create_room (self : t) (room_name : string) (max_participants : option Z)
    : result (option remote_room) :=
  try_except
    (room ← Platform.create_room platform room_name max_participants;
     mret (Some room))
    (λ e, mret None).

Definition delete_room (self : t) (room_name : string) : result bool :=
  try_except
    (Platform.delete_room platform room_name;;
     mret true)
    (λ e, mret false).
End Gateway.
End LiveKitService.


Module TokenResponse.
Record t (jwt : Type) : Type := mk {
  token : jwt;
  room_name : string;
  participant_identity : string;
  livekit_url : option string
}.
Arguments mk {jwt} _ _ _ _.
Arguments token {jwt} _.
Arguments room_name {jwt} _.
Arguments participant_identity {jwt} _.
Arguments livekit_url {jwt} _.
End TokenResponse.

(** ** Requests as computations over the store *)

Definition session (A : Type) : Type := DB.t → result A * DB.t.

#[global] Instance session_ret : MRet session :=
  λ A (a : A) db, (Return a, db).

#[global] Instance session_bind : MBind session :=
  λ A B (k : A → session B) (m : session A) db,
    match m db with
    | (Return a, db') => k a db'
    | (Raise e, db') => (Raise e, db')
    end.

(** [raise e] *)
Definition raise {A : Type} (e : exn) : session A := λ db, (Raise e, db).

(** A call that does not touch the store; what it raises propagates. *)
Definition call {A : Type} (r : result A) : session A := λ db, (r, db).

(** [db.query(...)]: reads, and leaves the store as it is. *)
Definition query {A : Type} (q : DB.t → A) : session A := λ db, (Return (q db), db).

(** Pending writes followed by [db.commit()]. *)
Definition commit (w : DB.t → DB.t) : session unit := λ db, (Return tt, w db).

(** *** The queries of main.py *)

Definition users_with_email_or_username (email username : string) (db : DB.t)
    : list User.t :=
  filter (λ u, User.email u = email ∨ User.username u = username) (DB.users db).

Definition rooms_named (name : string) (db : DB.t) : list Room.t :=
  filter (λ r, Room.name r = name) (DB.rooms db).

Definition rooms_with_id (room_id : Z) (db : DB.t) : list Room.t :=
  filter (λ r, Room.id r = room_id) (DB.rooms db).

Definition active_rooms (db : DB.t) : list Room.t :=
  filter (λ r, Room.is_active r = true) (DB.rooms db).

Definition active_memberships_of_room (room_id : Z) (db : DB.t)
    : list RoomMembership.t :=
  filter (λ m, RoomMembership.room_id m = room_id ∧ RoomMembership.is_active m = true)
         (DB.room_memberships db).

Definition active_memberships_of (user_id room_id : Z) (db : DB.t)
    : list RoomMembership.t :=
  filter (λ m, RoomMembership.user_id m = user_id
               ∧ RoomMembership.room_id m = room_id
               ∧ RoomMembership.is_active m = true)
         (DB.room_memberships db).

Definition memberships_of_room (room_id : Z) (db : DB.t) : list RoomMembership.t :=
  filter (λ m, RoomMembership.room_id m = room_id) (DB.room_memberships db).

(** *** The writes of main.py *)

(** [db.add(User(username=..., email=..., hashed_password=...))] and commit:
    the key is the next of the sequence, [is_active] and [created_at] take
    their column defaults. *)
Definition add_user (now : Z) (username email hashed_password : string)
    : session User.t := λ db,
  let row := User.mk (next_id (User.id <$> DB.users db)) username email
                     hashed_password true now in
  (Return row, DB.mk (DB.users db ++ [row]) (DB.rooms db) (DB.room_memberships db)).

(** [db.add(Room(...))], commit and refresh.  [max_participants] has the
    column default 50: the insert leaves out an attribute that is [None],
    so a request carrying null stores 50, and so reads the refreshed row. *)
Definition add_room (now : Z) (name display_name : string) (description : option string)
    (creator_id : Z) (max_participants : option Z) : session Room.t := λ db,
  let row := Room.mk (next_id (Room.id <$> DB.rooms db)) name display_name description
                     creator_id true (Some (default 50 max_participants)) now in
  (Return row, DB.mk (DB.users db) (DB.rooms db ++ [row]) (DB.room_memberships db)).

Definition add_membership (now : Z) (user_id room_id : Z) : session unit :=
  commit (λ db,
    let row := RoomMembership.mk (next_id (RoomMembership.id <$> DB.room_memberships db))
                                 user_id room_id now None true in
    DB.mk (DB.users db) (DB.rooms db) (DB.room_memberships db ++ [row])).

(** Attribute writes on a loaded row reach the table row with its key. *)
Definition update_room (room_id : Z) (f : Room.t → Room.t) (db : DB.t) : DB.t :=
  DB.mk (DB.users db)
        ((λ r, if decide (Room.id r = room_id) then f r else r) <$> DB.rooms db)
        (DB.room_memberships db).

Definition update_membership (membership_id : Z)
    (f : RoomMembership.t → RoomMembership.t) (db : DB.t) : DB.t :=
  DB.mk (DB.users db) (DB.rooms db)
        ((λ m, if decide (RoomMembership.id m = membership_id) then f m else m)
           <$> DB.room_memberships db).

(** [for membership in memberships: membership.is_active = False], over the
    rows loaded by the query on [room_id]. *)
Definition deactivate_memberships_of_room (room_id : Z) (db : DB.t) : DB.t :=
  DB.mk (DB.users db) (DB.rooms db)
        ((λ m, if decide (RoomMembership.room_id m = room_id)
               then RoomMembership.set_is_active false m else m)
           <$> DB.room_memberships db).

(** ** A small deployment, used to run the handlers on concrete requests *)

Module Scenario.


Definition service : LiveKitService.t :=
  LiveKitService.mk (Some "devkey") (Some "secret") (Some "wss://media.example").

(** A platform that is unreachable: every call raises. *)
Definition platform_down : Platform.t unit :=
  Platform.mk unit
    (λ _, Raise (Exception "connection refused"))
    (λ _, Raise (Exception "connection refused"))
    (λ _ _, Raise (Exception "connection refused"))
    (λ _, Raise (Exception "connection refused")).

Definition alice : User.t := User.mk 1 "alice" "alice@example.org" "$hash$a" true 1.
Definition bob : User.t := User.mk 2 "bob" "bob@example.org" "$hash$b" true 2.

(** Alice's room, for one participant. *)
Definition standup : Room.t := Room.mk 1 "standup" "Standup" None 1 true (Some 1) 10.

(** The room exists and nobody is in it. *)
Definition db_created : DB.t := DB.mk [alice; bob] [standup] [].

(** Alice is in the room, which is full. *)
Definition db_full : DB.t :=
  DB.mk [alice; bob] [standup] [RoomMembership.mk 1 1 1 20 None true].

(** The room after its soft deletion. *)
Definition db_deleted : DB.t :=
  DB.mk [alice; bob] [Room.set_is_active false standup]
        [RoomMembership.mk 1 1 1 20 None false].
End Scenario.

(** A reachable platform with one participant connected to the room. *)
Module Live.
Definition bob_connected : ParticipantInfo.t :=
  ParticipantInfo.mk "2" "bob" "user_id:2" ["camera"; "microphone"]
                     (Permission.mk true true true).

Definition platform : Platform.t unit :=
  Platform.mk unit
    (λ _, Return tt)
    (λ _, Return [bob_connected])
    (λ _ _, Return tt)
    (λ _, Return tt).

Definition carol : UserCreate.t := UserCreate.mk "carol" "carol@example.org" "pw".

Definition retro : RoomCreate.t := RoomCreate.mk "retro" "Retrospective" None (Some 50).
End Live.

(** A signer that can refuse: it raises on a token without a key or
    without a secret.  And an environment whose server URL is set, to the
    empty string. *)
Module Signing.

End Signing.

(** ** main.py: the request handlers *)

Section Handlers.
(** [auth.get_password_hash] *)
Context (get_password_hash : string → string).
(** The SDK's signer and the platform's room representation. *)
Context {jwt : Type} (to_jwt : AccessToken.t → jwt) {remote_room : Type}.
(** The module-level [livekit_service] instance. *)
Context (livekit_service : LiveKitService.t).

Definition register_user (now : Z) (user : UserCreate.t) : session UserResponse.t :=
  existing_user ← query (λ db, head (users_with_email_or_username
                          (UserCreate.email user) (UserCreate.username user) db));
  if existing_user is Some _ then
    raise (HTTPException HTTP_400_BAD_REQUEST
             "User with this email or username already exists")
  else
    let hashed_password := get_password_hash (UserCreate.password user) in
    db_user ← add_user now (UserCreate.username user) (UserCreate.email user)
                       hashed_password;
    mret (UserResponse.mk (User.id db_user) (User.username db_user) (User.email db_user)
                          (User.is_active db_user) (User.created_at db_user)).

Definition create_room (platform : Platform.t remote_room) (now : Z)
    (room : RoomCreate.t) (current_user : User.t) : session RoomResponse.t :=
  existing_room ← query (λ db, head (rooms_named (RoomCreate.name room) db));
  if existing_room is Some _ then
    raise (HTTPException HTTP_400_BAD_REQUEST "Room with this name already exists")
  else
    db_room ← add_room now (RoomCreate.name room) (RoomCreate.display_name room)
                       (RoomCreate.description room) (User.id current_user)
                       (RoomCreate.max_participants room);
    call (LiveKitService.create_room platform livekit_service
            (RoomCreate.name room) (RoomCreate.max_participants room));;
    mret (RoomResponse.mk (Room.id db_room) (Room.name db_room) (Room.display_name db_room)
                          (Room.description db_room) (Room.creator_id db_room)
                          (Room.is_active db_room) (Room.max_participants db_room)
                          (Room.created_at db_room) (Some 0)).

Definition list_rooms (current_user : User.t) : session (list RoomResponse.t) :=
  query (λ db,
    (λ room,
       let participant_count :=
         Z.of_nat (length (active_memberships_of_room (Room.id room) db)) in
       RoomResponse.mk (Room.id room) (Room.name room) (Room.display_name room)
                       (Room.description room) (Room.creator_id room)
                       (Room.is_active room) (Room.max_participants room)
                       (Room.created_at room) (Some participant_count))
    <$> active_rooms db).

Definition get_room_details (platform : Platform.t remote_room) (room_id : Z)
    (current_user : User.t) : session RoomWithParticipants.t :=
  room ← query (λ db, head (rooms_with_id room_id db));
  match room with
  | None => raise (HTTPException HTTP_404_NOT_FOUND "Room not found")
  | Some room =>
    room_info ← call (LiveKitService.get_room_info platform livekit_service
                        (Room.name room));
    let participants :=
      match room_info with
      | Some (_, ps) =>
        (λ p, RoomParticipant.mk (ParticipantInfo.identity p) (ParticipantInfo.name p)
                                 (ParticipantInfo.metadata p)
                                 (Z.of_nat (length (ParticipantInfo.tracks p)))
                                 (ParticipantInfo.permission p)) <$> ps
      | None => []
      end in
    mret (RoomWithParticipants.mk
            (RoomResponse.mk (Room.id room) (Room.name room) (Room.display_name room)
                             (Room.description room) (Room.creator_id room)
                             (Room.is_active room) (Room.max_participants room)
                             (Room.created_at room)
                             (Some (Z.of_nat (length participants))))
            participants)
  end.

Definition join_room (now : Z) (room_id : Z) (current_user : User.t)
    : session (TokenResponse.t jwt) :=
  room ← query (λ db, head (rooms_with_id room_id db));
  match room with
  | None => raise (HTTPException HTTP_404_NOT_FOUND "Room not found")
  | Some room =>
    existing_membership ← query (λ db,
      head (active_memberships_of (User.id current_user) room_id db));
    (if existing_membership is Some _ then mret tt
     else add_membership now (User.id current_user) room_id);;
    let token := LiveKitService.create_access_token to_jwt livekit_service
                   (Room.name room) (pretty (User.id current_user))
                   (Some (User.username current_user))
                   (Some ("user_id:" +:+ pretty (User.id current_user))) in
    mret (TokenResponse.mk token (Room.name room) (pretty (User.id current_user))
                           (LiveKitService.livekit_url livekit_service))
  end.

(** [db.execute("SELECT NOW()").scalar()] is the instant [now]. *)
Definition leave_room (now : Z) (room_id : Z) (current_user : User.t)
    : session string :=
  membership ← query (λ db,
    head (active_memberships_of (User.id current_user) room_id db));
  (if membership is Some membership then
     commit (update_membership (RoomMembership.id membership)
               (λ m, RoomMembership.set_left_at (Some now)
                       (RoomMembership.set_is_active false m)))
   else mret tt);;
  mret "Left room successfully".

Definition delete_room (platform : Platform.t remote_room) (room_id : Z)
    (current_user : User.t) : session string :=
  room ← query (λ db, head (rooms_with_id room_id db));
  match room with
  | None => raise (HTTPException HTTP_404_NOT_FOUND "Room not found")
  | Some room =>
    if decide (Room.creator_id room ≠ User.id current_user) then
      raise (HTTPException HTTP_403_FORBIDDEN "Only room creator can delete the room")
    else
      commit (λ db, deactivate_memberships_of_room room_id
                      (update_room (Room.id room) (Room.set_is_active false) db));;
      call (LiveKitService.delete_room platform livekit_service (Room.name room));;
      mret "Room deleted successfully"
  end.

(** *** What the handlers answer and leave behind *)

(** The store [delete_room] leaves when the creator asks. *)
Definition deleted (room_id : Z) (db : DB.t) : DB.t :=
  deactivate_memberships_of_room room_id
    (update_room room_id (Room.set_is_active false) db).

(** The body [join_room] answers with for [room] and [current_user]. *)
Definition join_response (room : Room.t) (current_user : User.t) : TokenResponse.t jwt :=
  TokenResponse.mk
    (LiveKitService.create_access_token to_jwt livekit_service
       (Room.name room) (pretty (User.id current_user))
       (Some (User.username current_user))
       (Some ("user_id:" +:+ pretty (User.id current_user))))
    (Room.name room) (pretty (User.id current_user))
    (LiveKitService.livekit_url livekit_service).

(** The row [join_room] inserts. *)
Definition new_membership (now user_id room_id : Z) (db : DB.t) : RoomMembership.t :=
  RoomMembership.mk (next_id (RoomMembership.id <$> DB.room_memberships db))
                    user_id room_id now None true.

(** The store [join_room] leaves when the room exists. *)
Definition joined (now user_id room_id : Z) (db : DB.t) : DB.t :=
  if head (active_memberships_of user_id room_id db) is Some _ then db
  else DB.mk (DB.users db) (DB.rooms db)
             (DB.room_memberships db ++ [new_membership now user_id room_id db]).

(** The invariant of the membership table. *)
Definition at_most_one_active (db : DB.t) : Prop :=
  ∀ user_id room_id, (length (active_memberships_of user_id room_id db) ≤ 1)%nat.

(** The row [create_room] inserts. *)
Definition new_room (now : Z) (room : RoomCreate.t) (current_user : User.t) (db : DB.t)
    : Room.t :=
  Room.mk (next_id (Room.id <$> DB.rooms db)) (RoomCreate.name room)
          (RoomCreate.display_name room) (RoomCreate.description room)
          (User.id current_user) true
          (Some (default 50 (RoomCreate.max_participants room))) now.

Definition room_response (room : Room.t) (participant_count : Z) : RoomResponse.t :=
  RoomResponse.mk (Room.id room) (Room.name room) (Room.display_name room)
                  (Room.description room) (Room.creator_id room) (Room.is_active room)
                  (Room.max_participants room) (Room.created_at room)
                  (Some participant_count).

(** The row [register_user] inserts. *)
Definition new_user (now : Z) (user : UserCreate.t) (db : DB.t) : User.t :=
  User.mk (next_id (User.id <$> DB.users db)) (UserCreate.username user)
          (UserCreate.email user) (get_password_hash (UserCreate.password user))
          true now.

Definition user_response (u : User.t) : UserResponse.t :=
  UserResponse.mk (User.id u) (User.username u) (User.email u) (User.is_active u)
                  (User.created_at u).

(** Accounts by email and by username. *)
Definition users_with_email (email : string) (db : DB.t) : list User.t :=
  filter (λ u, User.email u = email) (DB.users db).

Definition users_with_username (username : string) (db : DB.t) : list User.t :=
  filter (λ u, User.username u = username) (DB.users db).

Ltac run_session :=
  unfold mbind, session_bind, mret, session_ret, query, raise, commit, call.


(** *** Stores the handlers can reach *)

(** The store [leave_room] leaves. *)
Definition departed (now user_id room_id : Z) (db : DB.t) : DB.t :=
  match head (active_memberships_of user_id room_id db) with
  | Some membership =>
    update_membership (RoomMembership.id membership)
      (λ m, RoomMembership.set_left_at (Some now) (RoomMembership.set_is_active false m))
      db
  | None => db
  end.

(** The unique constraints of database.py: the primary keys, and the
    [unique=True] columns [users.username], [users.email], [rooms.name]. *)
Definition unique_keys (db : DB.t) : Prop :=
  NoDup (User.id <$> DB.users db)
  ∧ NoDup (User.username <$> DB.users db)
  ∧ NoDup (User.email <$> DB.users db)
  ∧ NoDup (Room.id <$> DB.rooms db)
  ∧ NoDup (Room.name <$> DB.rooms db)
  ∧ NoDup (RoomMembership.id <$> DB.room_memberships db).

(** One request served: the store before and the store after, for each
    handler, whatever it answers. *)
Inductive request_step (db : DB.t) : DB.t → Prop :=
| step_register_user now user :
    request_step db (register_user now user db).2
| step_create_room platform now room current_user :
    request_step db (create_room platform now room current_user db).2
| step_list_rooms current_user :
    request_step db (list_rooms current_user db).2
| step_get_room_details platform room_id current_user :
    request_step db (get_room_details platform room_id current_user db).2
| step_join_room now room_id current_user :
    request_step db (join_room now room_id current_user db).2
| step_leave_room now room_id current_user :
    request_step db (leave_room now room_id current_user db).2
| step_delete_room platform room_id current_user :
    request_step db (delete_room platform room_id current_user db).2.

(** The stores reached from the empty one by serving requests in sequence. *)
Definition reachable (db : DB.t) : Prop := rtc request_step DB.empty db.

(** What a later store keeps of an earlier one: the accounts as they were,
    in place; every room in place with its key, name and creator, and
    inactive if it was; every membership in place with its key, user, room
    and join instant, and inactive if it was. *)
Definition history_kept (db db' : DB.t) : Prop :=
  DB.users db `prefix_of` DB.users db'
  ∧ (∀ i r, DB.rooms db !! i = Some r →
       ∃ r', DB.rooms db' !! i = Some r'
             ∧ Room.id r' = Room.id r
             ∧ Room.name r' = Room.name r
             ∧ Room.creator_id r' = Room.creator_id r
             ∧ (Room.is_active r = false → Room.is_active r' = false))
  ∧ (∀ i m, DB.room_memberships db !! i = Some m →
       ∃ m', DB.room_memberships db' !! i = Some m'
             ∧ RoomMembership.id m' = RoomMembership.id m
             ∧ RoomMembership.user_id m' = RoomMembership.user_id m
             ∧ RoomMembership.room_id m' = RoomMembership.room_id m
             ∧ RoomMembership.joined_at m' = RoomMembership.joined_at m
             ∧ (RoomMembership.is_active m = false →
                RoomMembership.is_active m' = false)).

(** The grant of a room-join token. *)
Definition join_grants (room_name : string) : VideoGrants.t :=
  VideoGrants.mk None None (Some true) None (Some room_name)
                 (Some true) (Some true) (Some true).

(** * Properties *)

(** ** Truthiness *)

Lemma truthy_false_iff_absent (v : option string) : truthy v = false ↔ absent v.
Proof.
  unfold truthy, absent. destruct v as [s|].
  - destruct (String.eqb_spec s ""); simpl; split.
    + intros _. right. by f_equal.
    + done.
    + done.
    + intros [|[=]]; done.
  - split; [by left | done].
Qed.


Lemma supplied_Some (s : string) : s ≠ "" → supplied (Some s) = Some s.
Proof.
  intros Hne. unfold supplied, truthy.
  by destruct (String.eqb_spec s "").
Qed.

Lemma supplied_absent (v : option string) : absent v → supplied v = None.
Proof.
  intros Habs. unfold supplied.
  by rewrite (proj2 (truthy_false_iff_absent v) Habs).
Qed.

(** ** The grant signer *)

Section GrantSigner.
(** A verifier for the signer: under the secret a token was signed with, it
    yields the claims that were signed. *)
Context (verify : string → jwt → option Claims.t).
Hypothesis verify_to_jwt : ∀ key secret claims,
  verify secret (to_jwt (AccessToken.mk (Some key) (Some secret) claims)) = Some claims.

(** The token handed to the signer, builder call by builder call. *)
Lemma create_access_token_unfold (self : LiveKitService.t)
    (R I : string) (n m : option string) :
  LiveKitService.create_access_token to_jwt self R I n m =
  to_jwt (AccessToken.mk (LiveKitService.api_key self) (LiveKitService.api_secret self)
            (Claims.mk (Some I) (supplied n) (supplied m)
               (Some (VideoGrants.mk None None (Some true) None (Some R)
                                     (Some true) (Some true) (Some true))))).
Proof.
  unfold LiveKitService.create_access_token, supplied, truthy.
  destruct n as [n|], m as [m|]; simpl;
    repeat match goal with |- context [String.eqb ?s ""] => destruct (String.eqb s "") end;
    reflexivity.
Qed.

(** C1. The room-join token issued for room [R] and identity [I] verifies,
    under the service's secret, to exactly: identity [I]; the display name
    and the metadata when they are supplied (non-empty), nothing for them
    otherwise; and a video grant for room [R] with join, publish, subscribe
    and publish-data set, and without the room-create, room-list and
    room-admin capabilities. *)
Theorem create_access_token_decodes (self : LiveKitService.t) (key secret : string)
    (R I : string) (n m : option string) :
  LiveKitService.api_key self = Some key →
  LiveKitService.api_secret self = Some secret →
  ∃ g : VideoGrants.t,
    verify secret (LiveKitService.create_access_token to_jwt self R I n m)
      = Some (Claims.mk (Some I) (supplied n) (supplied m) (Some g))
    ∧ VideoGrants.room g = Some R
    ∧ VideoGrants.room_join g = Some true
    ∧ VideoGrants.can_publish g = Some true
    ∧ VideoGrants.can_subscribe g = Some true
    ∧ VideoGrants.can_publish_data g = Some true
    ∧ VideoGrants.grants (VideoGrants.room_create g) = false
    ∧ VideoGrants.grants (VideoGrants.room_list g) = false
    ∧ VideoGrants.grants (VideoGrants.room_admin g) = false.
Proof.
  intros Hkey Hsecret.
  rewrite create_access_token_unfold, Hkey, Hsecret, verify_to_jwt.
  eexists. split; [reflexivity|]. simpl. repeat split.
Qed.

End GrantSigner.

(** ** Construction of the signer *)


(** ** The gateway never raises *)

Section GatewayTotal.
Context (platform : Platform.t remote_room).
Context (self : LiveKitService.t).

Lemma gateway_get_room_info_returns (room_name : string) :
  ∃ v, LiveKitService.get_room_info platform self room_name = Return v.
Proof.
  unfold LiveKitService.get_room_info, try_except, mbind, result_bind, mret, result_ret.
  destruct (Platform.get_room platform room_name);
    [destruct (Platform.list_participants platform room_name)|]; eauto.
Qed.

Lemma gateway_get_room_info_failure (room_name : string) :
  (∃ e, Platform.get_room platform room_name = Raise e)
  ∨ (∃ e, Platform.list_participants platform room_name = Raise e) →
  LiveKitService.get_room_info platform self room_name = Return None.
Proof.
  unfold LiveKitService.get_room_info, try_except, mbind, result_bind, mret, result_ret.
  intros [[e ->] | [e ->]]; [done|].
  by destruct (Platform.get_room platform room_name).
Qed.

Lemma gateway_create_room_returns (room_name : string) (max_participants : option Z) :
  ∃ v, LiveKitService.create_room platform self room_name max_participants = Return v.
Proof.
  unfold LiveKitService.create_room, try_except, mbind, result_bind, mret, result_ret.
  destruct (Platform.create_room platform room_name max_participants); eauto.
Qed.

Lemma gateway_create_room_failure (room_name : string) (max_participants : option Z) e :
  Platform.create_room platform room_name max_participants = Raise e →
  LiveKitService.create_room platform self room_name max_participants = Return None.
Proof.
  unfold LiveKitService.create_room, try_except, mbind, result_bind, mret, result_ret.
  by intros ->.
Qed.

Lemma gateway_delete_room_returns (room_name : string) :
  ∃ v, LiveKitService.delete_room platform self room_name = Return v.
Proof.
  unfold LiveKitService.delete_room, try_except, mbind, result_bind, mret, result_ret.
  destruct (Platform.delete_room platform room_name); eauto.
Qed.

Lemma gateway_delete_room_failure (room_name : string) e :
  Platform.delete_room platform room_name = Raise e →
  LiveKitService.delete_room platform self room_name = Return false.
Proof.
  unfold LiveKitService.delete_room, try_except, mbind, result_bind, mret, result_ret.
  by intros ->.
Qed.

End GatewayTotal.

(** ** Rows and queries *)

Lemma head_filter_elem {A : Type} (P : A → Prop) `{!∀ x, Decision (P x)}
    (l : list A) (x : A) :
  head (filter P l) = Some x → P x ∧ x ∈ l.
Proof.
  intros Hhd. apply (list_elem_of_filter P l x).
  destruct (filter P l) as [|y l']; [done|].
  injection Hhd as ->. left.
Qed.

Lemma head_filter_None {A : Type} (P : A → Prop) `{!∀ x, Decision (P x)}
    (l : list A) :
  head (filter P l) = None ↔ ∀ x, x ∈ l → ¬ P x.
Proof.
  split.
  - intros Hhd x Hx HP.
    assert (Hin : x ∈ filter P l) by by apply list_elem_of_filter.
    destruct (filter P l); [by apply elem_of_nil in Hin | done].
  - intros Hno. destruct (filter P l) as [|y l'] eqn:Hf; [done|].
    assert (Hin : y ∈ filter P l) by (rewrite Hf; left).
    apply list_elem_of_filter in Hin as [HP Hy]. by destruct (Hno y Hy).
Qed.

Lemma head_filter_is_Some {A : Type} (P : A → Prop) `{!∀ x, Decision (P x)}
    (l : list A) (x : A) :
  x ∈ l → P x → is_Some (head (filter P l)).
Proof.
  intros Hx HP. destruct (head (filter P l)) eqn:Hhd; [eauto|].
  by destruct (proj1 (head_filter_None P l) Hhd x Hx).
Qed.

Lemma fmap_idempotent {A : Type} (f : A → A) (l : list A) :
  (∀ x, f (f x) = f x) → f <$> (f <$> l) = f <$> l.
Proof.
  intros Hidem. rewrite <- list_fmap_compose.
  apply list_fmap_ext. intros i x _. apply Hidem.
Qed.

Lemma rooms_with_id_head (room_id : Z) (db : DB.t) (room : Room.t) :
  head (rooms_with_id room_id db) = Some room →
  Room.id room = room_id ∧ room ∈ DB.rooms db.
Proof.
  intros Hhd. unfold rooms_with_id in Hhd.
  by apply (head_filter_elem (λ r, Room.id r = room_id)) in Hhd.
Qed.

(** ** Room deletion *)

Section RoomDeletion.

(** What [delete_room] does, case by case. *)
Lemma delete_room_cases (platform : Platform.t remote_room) (room_id : Z)
    (current_user : User.t) (db : DB.t) :
  delete_room platform room_id current_user db =
  match head (rooms_with_id room_id db) with
  | None => (Raise (HTTPException 404 "Room not found"), db)
  | Some room =>
    if decide (Room.creator_id room ≠ User.id current_user)
    then (Raise (HTTPException 403 "Only room creator can delete the room"), db)
    else (Return "Room deleted successfully", deleted room_id db)
  end.
Proof.
  unfold delete_room. run_session.
  destruct (head (rooms_with_id room_id db)) as [room|] eqn:Hroom; [|done].
  apply rooms_with_id_head in Hroom as [Hid _].
  destruct (decide (Room.creator_id room ≠ User.id current_user)); [done|].
  destruct (gateway_delete_room_returns platform livekit_service (Room.name room))
    as [v ->].
  by rewrite Hid.
Qed.

Lemma deleted_rooms_with_id (room_id : Z) (db : DB.t) :
  rooms_with_id room_id (deleted room_id db)
  = Room.set_is_active false <$> rooms_with_id room_id db.
Proof.
  unfold rooms_with_id, deleted, deactivate_memberships_of_room, update_room. simpl.
  induction (DB.rooms db) as [|r l IH]; [done|].
  rewrite fmap_cons, !filter_cons. simpl.
  destruct (decide (Room.id r = room_id)) as [Hr|Hr].
  - simpl. rewrite decide_True by done. by rewrite IH.
  - rewrite decide_False by done. apply IH.
Qed.

Lemma deleted_room_inactive (room_id : Z) (db : DB.t) (room : Room.t) :
  room ∈ DB.rooms (deleted room_id db) → Room.id room = room_id →
  Room.is_active room = false.
Proof.
  unfold deleted, deactivate_memberships_of_room, update_room. simpl.
  intros Hin Hid. apply list_elem_of_fmap in Hin as (r & -> & _).
  destruct (decide (Room.id r = room_id)); [done|]. by destruct n.
Qed.

Lemma deleted_memberships_inactive (room_id : Z) (db : DB.t) (m : RoomMembership.t) :
  m ∈ DB.room_memberships (deleted room_id db) → RoomMembership.room_id m = room_id →
  RoomMembership.is_active m = false.
Proof.
  unfold deleted, deactivate_memberships_of_room, update_room. simpl.
  intros Hin Hid. apply list_elem_of_fmap in Hin as (m' & -> & _).
  destruct (decide (RoomMembership.room_id m' = room_id)); [done|]. by destruct n.
Qed.

Lemma deleted_idempotent (room_id : Z) (db : DB.t) :
  deleted room_id (deleted room_id db) = deleted room_id db.
Proof.
  unfold deleted, deactivate_memberships_of_room, update_room. simpl. f_equal.
  - apply fmap_idempotent. intros r.
    destruct (decide (Room.id r = room_id)) as [Hr|Hr]; simpl.
    + by rewrite decide_True.
    + by rewrite decide_False.
  - apply fmap_idempotent. intros m.
    destruct (decide (RoomMembership.room_id m = room_id)) as [Hm|Hm]; simpl.
    + by rewrite decide_True.
    + by rewrite decide_False.
Qed.

(** C2. When the creator of room [r] deletes it, the request succeeds;
    afterwards the room row is inactive and every membership row of the
    room is inactive, whatever it was before; and deleting again from that
    state (whatever the platform then answers) succeeds and leaves the
    store as it is. *)
Theorem delete_room_cascades (platform platform' : Platform.t remote_room)
    (room_id : Z) (current_user : User.t) (db : DB.t) (r : Room.t) :
  head (rooms_with_id room_id db) = Some r →
  Room.creator_id r = User.id current_user →
  ∃ db',
    delete_room platform room_id current_user db
      = (Return "Room deleted successfully", db')
    ∧ head (rooms_with_id room_id db') = Some (Room.set_is_active false r)
    ∧ (∀ r', r' ∈ DB.rooms db' → Room.id r' = room_id → Room.is_active r' = false)
    ∧ (∀ m, m ∈ DB.room_memberships db' → RoomMembership.room_id m = room_id →
            RoomMembership.is_active m = false)
    ∧ length (DB.room_memberships db') = length (DB.room_memberships db)
    ∧ delete_room platform' room_id current_user db'
        = (Return "Room deleted successfully", db').
Proof.
  intros Hroom Hcreator. exists (deleted room_id db).
  assert (Hroom' : head (rooms_with_id room_id (deleted room_id db))
                   = Some (Room.set_is_active false r)).
  { rewrite deleted_rooms_with_id.
    destruct (rooms_with_id room_id db); [done|]. by injection Hroom as ->. }
  repeat split.
  - rewrite delete_room_cases, Hroom. by rewrite decide_False by (by intros []).
  - done.
  - apply deleted_room_inactive.
  - apply deleted_memberships_inactive.
  - unfold deleted, deactivate_memberships_of_room. simpl. apply length_fmap.
  - rewrite delete_room_cases, Hroom'. simpl.
    rewrite decide_False by (by intros []). by rewrite deleted_idempotent.
Qed.

(** C5. When a user other than the creator asks to delete room [r], the
    request fails with 403 and the store (the room row, every membership
    row, everything else) is exactly what it was. *)
Theorem delete_room_by_other_rejected (platform : Platform.t remote_room)
    (room_id : Z) (A B : User.t) (db : DB.t) (r : Room.t) :
  head (rooms_with_id room_id db) = Some r →
  Room.creator_id r = User.id A →
  User.id B ≠ User.id A →
  delete_room platform room_id B db
    = (Raise (HTTPException 403 "Only room creator can delete the room"), db).
Proof.
  intros Hroom Hcreator Hother.
  rewrite delete_room_cases, Hroom.
  rewrite decide_True; [done|]. by rewrite Hcreator.
Qed.

End RoomDeletion.

(** ** Joining *)

Section Joining.

Lemma join_room_cases (now room_id : Z) (current_user : User.t) (db : DB.t) :
  join_room now room_id current_user db =
  match head (rooms_with_id room_id db) with
  | None => (Raise (HTTPException 404 "Room not found"), db)
  | Some room =>
    (Return (join_response room current_user),
     joined now (User.id current_user) room_id db)
  end.
Proof.
  unfold join_room, joined, add_membership. run_session.
  destruct (head (rooms_with_id room_id db)) as [room|]; [|done].
  by destruct (head (active_memberships_of (User.id current_user) room_id db)).
Qed.

Lemma joined_existing (now user_id room_id : Z) (db : DB.t) :
  is_Some (head (active_memberships_of user_id room_id db)) →
  joined now user_id room_id db = db.
Proof. intros [m Hm]. unfold joined. by rewrite Hm. Qed.

Lemma joined_rooms (now user_id room_id : Z) (db : DB.t) :
  DB.rooms (joined now user_id room_id db) = DB.rooms db.
Proof.
  unfold joined.
  by destruct (head (active_memberships_of user_id room_id db)).
Qed.

(** The active rows of a pair after a join: the pair that joined has
    exactly one, every other pair has what it had. *)
Lemma joined_active_memberships_of (now user_id room_id : Z) (db : DB.t) (u r : Z) :
  active_memberships_of u r (joined now user_id room_id db) =
  if decide (u = user_id ∧ r = room_id) then
    match active_memberships_of user_id room_id db with
    | [] => [new_membership now user_id room_id db]
    | l => l
    end
  else active_memberships_of u r db.
Proof.
  unfold joined.
  destruct (active_memberships_of user_id room_id db) as [|m l] eqn:Hact; simpl.
  - unfold active_memberships_of at 1. simpl. rewrite filter_app, filter_cons, filter_nil.
    fold (active_memberships_of u r db). simpl.
    destruct (decide (u = user_id ∧ r = room_id)) as [[-> ->]|Hne].
    + rewrite decide_True by done. by rewrite Hact.
    + rewrite decide_False by (intros (<- & <- & _); by apply Hne).
      by rewrite app_nil_r.
  - destruct (decide (u = user_id ∧ r = room_id)) as [[-> ->]|Hne]; [|done].
    by rewrite Hact.
Qed.

(** The active rows of a room after a join. *)
Lemma joined_active_memberships_of_room (now user_id room_id : Z) (db : DB.t) :
  active_memberships_of_room room_id (joined now user_id room_id db) =
  match active_memberships_of user_id room_id db with
  | [] => (active_memberships_of_room room_id db
             ++ [new_membership now user_id room_id db])%list
  | _ => active_memberships_of_room room_id db
  end.
Proof.
  unfold joined.
  destruct (active_memberships_of user_id room_id db) as [|m l] eqn:Hact; simpl; [|done].
  unfold active_memberships_of_room at 1. simpl. rewrite filter_app, filter_cons, filter_nil.
  simpl. by rewrite decide_True by done.
Qed.

Lemma joined_at_most_one_active (now user_id room_id : Z) (db : DB.t) :
  at_most_one_active db → at_most_one_active (joined now user_id room_id db).
Proof.
  intros Hinv u r. rewrite joined_active_memberships_of.
  destruct (decide (u = user_id ∧ r = room_id)); [|apply Hinv].
  specialize (Hinv user_id room_id).
  by destruct (active_memberships_of user_id room_id db).
Qed.

Lemma joined_is_active (now user_id room_id : Z) (db : DB.t) :
  is_Some (head (active_memberships_of user_id room_id (joined now user_id room_id db))).
Proof.
  rewrite joined_active_memberships_of, decide_True by done.
  destruct (active_memberships_of user_id room_id db); simpl; eauto.
Qed.

(** C3. In sequential execution [join_room] preserves "at most one active
    membership row per (user, room)": the store it leaves satisfies the
    invariant; when the user already has an active row in the room the
    store is left as it is (no row inserted); and a second join by the
    same user, at any later instant, leaves the store of the first, with
    at most one active row for the pair. *)
Theorem join_room_keeps_one_active (now now' room_id : Z) (current_user : User.t)
    (db : DB.t) :
  at_most_one_active db →
  let db1 := (join_room now room_id current_user db).2 in
  let db2 := (join_room now' room_id current_user db1).2 in
  at_most_one_active db1
  ∧ (is_Some (head (active_memberships_of (User.id current_user) room_id db)) →
       db1 = db)
  ∧ db2 = db1
  ∧ (length (active_memberships_of (User.id current_user) room_id db2) ≤ 1)%nat.
Proof.
  intros Hinv db1 db2. subst db2 db1. rewrite !join_room_cases.
  destruct (head (rooms_with_id room_id db)) as [room|] eqn:Hroom; simpl.
  - unfold rooms_with_id in *. rewrite joined_rooms, Hroom. simpl.
    assert (Hsame : joined now' (User.id current_user) room_id
                      (joined now (User.id current_user) room_id db)
                    = joined now (User.id current_user) room_id db)
      by apply joined_existing, joined_is_active.
    rewrite Hsame. repeat split.
    + by apply joined_at_most_one_active.
    + apply joined_existing.
    + by apply joined_at_most_one_active.
  - rewrite Hroom. simpl. repeat split; [done | apply Hinv].
Qed.

(** C10. Whenever the room exists, [join_room] answers with a token for
    it and leaves the user with an active membership, whatever the number
    of active memberships of the room: a user without an active row adds
    one to that number, so from a room that is full ([max_participants]
    reached) the number goes above the bound. *)
Theorem join_room_ignores_max_participants (now room_id : Z) (current_user : User.t)
    (db : DB.t) (r : Room.t) :
  head (rooms_with_id room_id db) = Some r →
  ∃ db',
    join_room now room_id current_user db
      = (Return (join_response r current_user), db')
    ∧ is_Some (head (active_memberships_of (User.id current_user) room_id db'))
    ∧ (active_memberships_of (User.id current_user) room_id db = [] →
       length (active_memberships_of_room room_id db')
         = S (length (active_memberships_of_room room_id db))
       ∧ ∀ bound : Z,
           Room.max_participants r = Some bound →
           bound ≤ Z.of_nat (length (active_memberships_of_room room_id db)) →
           bound < Z.of_nat (length (active_memberships_of_room room_id db'))).
Proof.
  intros Hroom. exists (joined now (User.id current_user) room_id db).
  rewrite join_room_cases, Hroom. split; [done|]. split; [apply joined_is_active|].
  intros Hnone. rewrite joined_active_memberships_of_room, Hnone.
  rewrite length_app. simpl. split; [lia|]. intros bound _ Hfull. lia.
Qed.

(** After a deletion by the creator the room row is still found by its
    key, and no membership of the room is active: the next join inserts a
    fresh active row and answers with a token. *)
Lemma join_room_after_delete (platform : Platform.t remote_room)
    (now room_id : Z) (creator current_user : User.t) (db : DB.t) (r : Room.t) :
  head (rooms_with_id room_id db) = Some r →
  Room.creator_id r = User.id creator →
  let db' := (delete_room platform room_id creator db).2 in
  join_room now room_id current_user db'
  = (Return (join_response (Room.set_is_active false r) current_user),
     DB.mk (DB.users db') (DB.rooms db')
           (DB.room_memberships db'
              ++ [new_membership now (User.id current_user) room_id db'])).
Proof.
  intros Hroom Hcreator db'. subst db'.
  destruct (delete_room_cascades platform platform room_id creator db r
              Hroom Hcreator) as (db' & -> & Hroom' & _ & Hinactive & _).
  simpl. rewrite join_room_cases, Hroom'. f_equal.
  unfold joined.
  destruct (head (active_memberships_of (User.id current_user) room_id db'))
    as [m|] eqn:Hm; [|done].
  unfold active_memberships_of in Hm.
  apply (head_filter_elem _) in Hm as [(_ & Hrid & Hact) Hin].
  rewrite (Hinactive m Hin Hrid) in Hact. done.
Qed.

End Joining.

(** ** Room creation and the gateway *)

Section RoomCreation.

Lemma create_room_cases (platform : Platform.t remote_room) (now : Z)
    (room : RoomCreate.t) (current_user : User.t) (db : DB.t) :
  create_room platform now room current_user db =
  match head (rooms_named (RoomCreate.name room) db) with
  | Some _ => (Raise (HTTPException 400 "Room with this name already exists"), db)
  | None =>
    (Return (room_response (new_room now room current_user db) 0),
     DB.mk (DB.users db) (DB.rooms db ++ [new_room now room current_user db])
           (DB.room_memberships db))
  end.
Proof.
  unfold create_room, add_room. run_session.
  destruct (head (rooms_named (RoomCreate.name room) db)); [done|].
  by destruct (gateway_create_room_returns platform livekit_service
                 (RoomCreate.name room) (RoomCreate.max_participants room)) as [v ->].
Qed.

(** C9. A create request that carries the name of a soft-deleted room is
    rejected with the 400 duplicate-name error and writes nothing: the
    duplicate check looks at every room row, active or not. *)
Theorem create_room_rejects_deleted_name (platform : Platform.t remote_room) (now : Z)
    (room : RoomCreate.t) (current_user : User.t) (db : DB.t) (r : Room.t) :
  r ∈ DB.rooms db →
  Room.is_active r = false →
  RoomCreate.name room = Room.name r →
  create_room platform now room current_user db
  = (Raise (HTTPException 400 "Room with this name already exists"), db).
Proof.
  intros Hin _ Hname. rewrite create_room_cases.
  destruct (head_filter_is_Some (λ r', Room.name r' = RoomCreate.name room)
              (DB.rooms db) r Hin (eq_sym Hname)) as [r' Hr'].
  unfold rooms_named. by rewrite Hr'.
Qed.

Lemma get_room_details_cases (platform : Platform.t remote_room) (room_id : Z)
    (current_user : User.t) (db : DB.t) :
  get_room_details platform room_id current_user db =
  match head (rooms_with_id room_id db) with
  | None => (Raise (HTTPException 404 "Room not found"), db)
  | Some room =>
    match LiveKitService.get_room_info platform livekit_service (Room.name room) with
    | Return None | Return (Some (_, [])) =>
        (Return (RoomWithParticipants.mk (room_response room 0) []), db)
    | Return (Some (_, ps)) =>
        (Return (RoomWithParticipants.mk
                   (room_response room (Z.of_nat (length ps)))
                   ((λ p, RoomParticipant.mk
                            (ParticipantInfo.identity p) (ParticipantInfo.name p)
                            (ParticipantInfo.metadata p)
                            (Z.of_nat (length (ParticipantInfo.tracks p)))
                            (ParticipantInfo.permission p)) <$> ps)), db)
    | Raise e => (Raise e, db)
    end
  end.
Proof.
  unfold get_room_details. run_session.
  destruct (head (rooms_with_id room_id db)) as [room|]; [|done].
  destruct (LiveKitService.get_room_info platform livekit_service (Room.name room))
    as [[[ri [|p ps]]|]|e]; try done.
  unfold room_response. by rewrite length_fmap.
Qed.

(** C6. A failure of the media platform never becomes a request error and
    never touches the store.
    - The three gateway methods always return: when the remote call raises,
      [get_room_info] and [create_room] return [None] and [delete_room]
      returns [False].
    - [get_room_details] on an existing room answers 200, with an empty
      participant list and count 0 when [get_room_info] yields [None], and
      leaves the store as it is.
    - [create_room] and [delete_room] give the same answer and the same
      store whatever the platform does; in particular a creation that passes
      the duplicate check keeps the inserted room row. *)
Theorem gateway_failures_absorbed (platform : Platform.t remote_room) :
  (∀ room_name max_participants,
      (∃ v, LiveKitService.get_room_info platform livekit_service room_name = Return v)
    ∧ (∃ v, LiveKitService.create_room platform livekit_service room_name max_participants
              = Return v)
    ∧ (∃ v, LiveKitService.delete_room platform livekit_service room_name = Return v)
    ∧ (∀ e, Platform.get_room platform room_name = Raise e →
            LiveKitService.get_room_info platform livekit_service room_name = Return None)
    ∧ (∀ e, Platform.list_participants platform room_name = Raise e →
            LiveKitService.get_room_info platform livekit_service room_name = Return None)
    ∧ (∀ e, Platform.create_room platform room_name max_participants = Raise e →
            LiveKitService.create_room platform livekit_service room_name max_participants
              = Return None)
    ∧ (∀ e, Platform.delete_room platform room_name = Raise e →
            LiveKitService.delete_room platform livekit_service room_name = Return false))
  ∧ (∀ room_id current_user db room,
       head (rooms_with_id room_id db) = Some room →
       (∃ body, get_room_details platform room_id current_user db
                  = (Return body, db))
       ∧ (LiveKitService.get_room_info platform livekit_service (Room.name room)
            = Return None →
          get_room_details platform room_id current_user db
            = (Return (RoomWithParticipants.mk (room_response room 0) []), db)))
  ∧ (∀ (platform' : Platform.t remote_room) now room current_user db,
       create_room platform now room current_user db
         = create_room platform' now room current_user db
       ∧ (head (rooms_named (RoomCreate.name room) db) = None →
          create_room platform now room current_user db
            = (Return (room_response (new_room now room current_user db) 0),
               DB.mk (DB.users db) (DB.rooms db ++ [new_room now room current_user db])
                     (DB.room_memberships db))))
  ∧ (∀ (platform' : Platform.t remote_room) room_id current_user db,
       delete_room platform room_id current_user db
         = delete_room platform' room_id current_user db).
Proof.
  split; [|split; [|split]].
  - intros room_name max_participants. repeat apply conj.
    + apply gateway_get_room_info_returns.
    + apply gateway_create_room_returns.
    + apply gateway_delete_room_returns.
    + intros e He. apply gateway_get_room_info_failure. eauto.
    + intros e He. apply gateway_get_room_info_failure. eauto.
    + apply gateway_create_room_failure.
    + apply gateway_delete_room_failure.
  - intros room_id current_user db room Hroom. split.
    + rewrite get_room_details_cases, Hroom.
      destruct (gateway_get_room_info_returns platform livekit_service (Room.name room))
        as [v ->].
      destruct v as [[ri [|p ps]]|]; eauto.
    + intros Hnone. by rewrite get_room_details_cases, Hroom, Hnone.
  - intros platform' now room current_user db. split.
    + by rewrite !create_room_cases.
    + intros Hfree. by rewrite create_room_cases, Hfree.
  - intros platform' room_id current_user db. by rewrite !delete_room_cases.
Qed.

End RoomCreation.

(** ** Registration *)

Section Registration.

Lemma register_user_cases (now : Z) (user : UserCreate.t) (db : DB.t) :
  register_user now user db =
  match head (users_with_email_or_username (UserCreate.email user)
                (UserCreate.username user) db) with
  | Some _ =>
    (Raise (HTTPException 400 "User with this email or username already exists"), db)
  | None =>
    (Return (user_response (new_user now user db)),
     DB.mk (DB.users db ++ [new_user now user db]) (DB.rooms db) (DB.room_memberships db))
  end.
Proof.
  unfold register_user, add_user. run_session.
  by destruct (head (users_with_email_or_username _ _ db)).
Qed.

Lemma filter_none_nil {A : Type} (P : A → Prop) `{!∀ x, Decision (P x)} (l : list A) :
  (∀ x, x ∈ l → ¬ P x) → filter P l = [].
Proof.
  intros Hno. destruct (filter P l) as [|y l'] eqn:Hf; [done|].
  assert (Hin : y ∈ filter P l) by (rewrite Hf; left).
  apply list_elem_of_filter in Hin as [HP Hy]. by destruct (Hno y Hy).
Qed.

(** C8. A registration whose email or username is that of an existing
    account is rejected with 400 and inserts nothing.  Hence, of two
    registrations the second of which repeats the email or the username of
    the first (accepted) one, the second is rejected, and afterwards
    exactly one account has that email and exactly one has that
    username. *)
Theorem register_user_rejects_duplicate (now now2 : Z) (user user2 : UserCreate.t)
    (db : DB.t) :
  (∀ u, u ∈ DB.users db →
        User.email u = UserCreate.email user
        ∨ User.username u = UserCreate.username user →
        register_user now user db
        = (Raise (HTTPException 400 "User with this email or username already exists"),
           db))
  ∧ ((∀ u, u ∈ DB.users db →
           User.email u ≠ UserCreate.email user
           ∧ User.username u ≠ UserCreate.username user) →
     UserCreate.email user2 = UserCreate.email user
     ∨ UserCreate.username user2 = UserCreate.username user →
     ∃ body db1,
       register_user now user db = (Return body, db1)
       ∧ register_user now2 user2 db1
         = (Raise (HTTPException 400 "User with this email or username already exists"),
            db1)
       ∧ length (users_with_email (UserCreate.email user) db1) = 1%nat
       ∧ length (users_with_username (UserCreate.username user) db1) = 1%nat).
Proof.
  split.
  - intros u Hin Hmatch. rewrite register_user_cases.
    destruct (head_filter_is_Some
                (λ u, User.email u = UserCreate.email user
                      ∨ User.username u = UserCreate.username user)
                (DB.users db) u Hin Hmatch) as [u' Hu'].
    unfold users_with_email_or_username. by rewrite Hu'.
  - intros Hfresh Hsame. do 2 eexists.
    rewrite (register_user_cases now user db).
    assert (Hnone : head (users_with_email_or_username (UserCreate.email user)
                            (UserCreate.username user) db) = None).
    { apply head_filter_None. intros u Hu [He|Hn]; by destruct (Hfresh u Hu). }
    rewrite Hnone. split; [reflexivity|]. split; [|split].
    + rewrite register_user_cases.
      destruct (head_filter_is_Some
                  (λ u, User.email u = UserCreate.email user2
                        ∨ User.username u = UserCreate.username user2)
                  (DB.users db ++ [new_user now user db]) (new_user now user db))
        as [u' Hu'].
      * apply elem_of_app. right. left.
      * simpl. destruct Hsame as [->| ->]; [by left | by right].
      * unfold users_with_email_or_username. simpl. by rewrite Hu'.
    + unfold users_with_email. simpl. rewrite filter_app, filter_cons, filter_nil. simpl.
      rewrite decide_True by done.
      rewrite (filter_none_nil (λ u, User.email u = UserCreate.email user));
        [done|]. intros u Hu. by destruct (Hfresh u Hu).
    + unfold users_with_username. simpl. rewrite filter_app, filter_cons, filter_nil. simpl.
      rewrite decide_True by done.
      rewrite (filter_none_nil (λ u, User.username u = UserCreate.username user));
        [done|]. intros u Hu. by destruct (Hfresh u Hu).
Qed.

End Registration.

(** ** Beyond the room-join path: leaving, listing, lookups *)

Section Lookups.

(** An update that only switches matches of [P] off can only shorten the
    answer of the query on [P]. *)
Lemma filter_fmap_shrinks {A : Type} (P : A → Prop) `{!∀ x, Decision (P x)}
    (g : A → A) (l : list A) :
  (∀ x, P (g x) → P x) → (length (filter P (g <$> l)) ≤ length (filter P l))%nat.
Proof.
  intros Hg. induction l as [|x l IH]; [done|].
  rewrite fmap_cons, !filter_cons.
  destruct (decide (P (g x))) as [HPg|HPg], (decide (P x)) as [HP|HP]; simpl; try lia.
  exfalso. by apply HP, Hg.
Qed.

(** An update that fixes the matches of [P] and creates none leaves the
    answer of the query on [P] as it is. *)
Lemma filter_fmap_fixed {A : Type} (P : A → Prop) `{!∀ x, Decision (P x)}
    (g : A → A) (l : list A) :
  (∀ x, P x → g x = x) → (∀ x, P (g x) → P x) → filter P (g <$> l) = filter P l.
Proof.
  intros Hfix Hg. induction l as [|x l IH]; [done|].
  rewrite fmap_cons, !filter_cons.
  destruct (decide (P x)) as [HP|HP].
  - rewrite (Hfix x HP), decide_True by done. by rewrite IH.
  - rewrite decide_False; [done|]. intros HPg. by apply HP, Hg.
Qed.

Lemma fmap_fmap_same {A B : Type} (f : A → B) (g : A → A) (l : list A) :
  (∀ x, f (g x) = f x) → f <$> (g <$> l) = f <$> l.
Proof.
  intros Hfg. rewrite <- list_fmap_compose. apply list_fmap_ext. intros i x _. apply Hfg.
Qed.

Lemma rooms_with_id_None (room_id : Z) (db : DB.t) :
  (∀ r, r ∈ DB.rooms db → Room.id r ≠ room_id) →
  head (rooms_with_id room_id db) = None.
Proof. intros Hno. unfold rooms_with_id. by apply head_filter_None. Qed.

(** X4. A room id that no row carries is answered with 404 by the three
    handlers that take one, and none of them writes anything. *)
Theorem unknown_room_not_found (platform : Platform.t remote_room) (now room_id : Z)
    (current_user : User.t) (db : DB.t) :
  (∀ r, r ∈ DB.rooms db → Room.id r ≠ room_id) →
  get_room_details platform room_id current_user db
    = (Raise (HTTPException 404 "Room not found"), db)
  ∧ join_room now room_id current_user db
    = (Raise (HTTPException 404 "Room not found"), db)
  ∧ delete_room platform room_id current_user db
    = (Raise (HTTPException 404 "Room not found"), db).
Proof.
  intros Hno. apply rooms_with_id_None in Hno.
  by rewrite get_room_details_cases, join_room_cases, delete_room_cases, Hno.
Qed.

(** *** Leaving *)

Lemma leave_room_cases (now room_id : Z) (current_user : User.t) (db : DB.t) :
  leave_room now room_id current_user db
  = (Return "Left room successfully", departed now (User.id current_user) room_id db).
Proof.
  unfold leave_room, departed. run_session.
  by destruct (head (active_memberships_of (User.id current_user) room_id db)).
Qed.

Lemma departed_at_most_one_active (now user_id room_id : Z) (db : DB.t) :
  at_most_one_active db → at_most_one_active (departed now user_id room_id db).
Proof.
  intros Hinv u r. unfold departed.
  destruct (head (active_memberships_of user_id room_id db)) as [m|]; [|apply Hinv].
  etrans; [|apply (Hinv u r)].
  unfold active_memberships_of, update_membership. simpl.
  apply filter_fmap_shrinks. intros x.
  destruct (decide (RoomMembership.id x = RoomMembership.id m)); [|done].
  simpl. by intros (_ & _ & ?).
Qed.

Lemma deleted_at_most_one_active (room_id : Z) (db : DB.t) :
  at_most_one_active db → at_most_one_active (deleted room_id db).
Proof.
  intros Hinv u r. etrans; [|apply (Hinv u r)].
  unfold active_memberships_of, deleted, deactivate_memberships_of_room. simpl.
  apply filter_fmap_shrinks. intros x.
  destruct (decide (RoomMembership.room_id x = room_id)); [|done].
  simpl. by intros (_ & _ & ?).
Qed.

Lemma departed_no_active (now user_id room_id : Z) (db : DB.t) :
  at_most_one_active db →
  active_memberships_of user_id room_id (departed now user_id room_id db) = [].
Proof.
  intros Hinv. unfold departed.
  destruct (active_memberships_of user_id room_id db) as [|m l] eqn:Hact; [done|].
  simpl. specialize (Hinv user_id room_id). rewrite Hact in Hinv.
  destruct l; [|simpl in Hinv; lia].
  unfold active_memberships_of, update_membership. simpl.
  apply filter_none_nil. intros x Hx HP.
  apply list_elem_of_fmap in Hx as (m' & -> & Hm').
  destruct (decide (RoomMembership.id m' = RoomMembership.id m)) as [Hid|Hid].
  - simpl in HP. by destruct HP as (_ & _ & ?).
  - assert (Hin : m' ∈ active_memberships_of user_id room_id db)
      by by apply list_elem_of_filter.
    rewrite Hact in Hin. apply list_elem_of_singleton in Hin. by subst.
Qed.

Lemma departed_rooms (now user_id room_id : Z) (db : DB.t) :
  DB.rooms (departed now user_id room_id db) = DB.rooms db.
Proof.
  unfold departed. by destruct (head (active_memberships_of user_id room_id db)).
Qed.

Lemma departed_length (now user_id room_id : Z) (db : DB.t) :
  length (DB.room_memberships (departed now user_id room_id db))
  = length (DB.room_memberships db).
Proof.
  unfold departed.
  destruct (head (active_memberships_of user_id room_id db)); [|done].
  unfold update_membership. simpl. apply length_fmap.
Qed.

(** X5. [leave_room] always answers 200.  With no active membership of the
    user in the room it writes nothing.  Otherwise, in a store with at most
    one active row per (user, room), the active row is switched off and
    stamped with the leave instant, no row is added or removed, and the
    user is left without an active row in the room. *)
Theorem leave_room_deactivates (now room_id : Z) (current_user : User.t) (db : DB.t) :
  at_most_one_active db →
  ∃ db',
    leave_room now room_id current_user db = (Return "Left room successfully", db')
    ∧ (active_memberships_of (User.id current_user) room_id db = [] → db' = db)
    ∧ (∀ m, head (active_memberships_of (User.id current_user) room_id db) = Some m →
            RoomMembership.set_left_at (Some now) (RoomMembership.set_is_active false m)
              ∈ DB.room_memberships db')
    ∧ active_memberships_of (User.id current_user) room_id db' = []
    ∧ length (DB.room_memberships db') = length (DB.room_memberships db)
    ∧ DB.rooms db' = DB.rooms db
    ∧ at_most_one_active db'.
Proof.
  intros Hinv. exists (departed now (User.id current_user) room_id db).
  split; [apply leave_room_cases|]. split; [|split; [|split; [|split; [|split]]]].
  - intros Hnone. unfold departed. by rewrite Hnone.
  - intros m Hm. unfold departed. rewrite Hm. unfold update_membership. simpl.
    unfold active_memberships_of in Hm.
    apply (head_filter_elem _) in Hm as [_ Hin].
    apply list_elem_of_fmap. exists m. by rewrite decide_True.
  - by apply departed_no_active.
  - apply departed_length.
  - apply departed_rooms.
  - by apply departed_at_most_one_active.
Qed.

(** X6. Leaving and joining again does not revive the old row: the old row
    stays switched off, a fresh active row is appended, and it is the only
    active row of the user in the room. *)
Theorem leave_then_join_appends (now now' room_id : Z) (current_user : User.t)
    (db : DB.t) (r : Room.t) :
  at_most_one_active db →
  head (rooms_with_id room_id db) = Some r →
  let db1 := (leave_room now room_id current_user db).2 in
  let db2 := (join_room now' room_id current_user db1).2 in
  let row := new_membership now' (User.id current_user) room_id db1 in
  DB.room_memberships db2 = DB.room_memberships db1 ++ [row]
  ∧ length (DB.room_memberships db2) = S (length (DB.room_memberships db))
  ∧ active_memberships_of (User.id current_user) room_id db2 = [row].
Proof.
  intros Hinv Hroom db1 db2 row.
  subst db2 row db1. rewrite leave_room_cases. simpl.
  pose proof (departed_no_active now (User.id current_user) room_id db Hinv) as Hnone.
  pose proof (departed_rooms now (User.id current_user) room_id db) as Hrooms.
  pose proof (departed_length now (User.id current_user) room_id db) as Hlen.
  rewrite join_room_cases. unfold rooms_with_id. rewrite Hrooms.
  fold (rooms_with_id room_id db). rewrite Hroom. simpl.
  split; [|split].
  - unfold joined. by rewrite Hnone.
  - unfold joined. rewrite Hnone. simpl. rewrite length_app, Hlen. simpl. lia.
  - rewrite joined_active_memberships_of, decide_True by done. by rewrite Hnone.
Qed.

End Lookups.

(** ** Deleting and listing *)

Section Listing.

(** X7. Whatever it answers, [delete_room] touches nothing but the
    [is_active] flags of the room and of its memberships: the accounts, the
    rows of every other room and the memberships of every other room are
    as before, and no membership changes its key, user, room, join instant
    or leave instant (a deletion does not stamp [left_at]). *)
Theorem delete_room_frame (platform : Platform.t remote_room) (room_id : Z)
    (current_user : User.t) (db : DB.t) :
  let db' := (delete_room platform room_id current_user db).2 in
  DB.users db' = DB.users db
  ∧ (∀ other, other ≠ room_id →
       rooms_with_id other db' = rooms_with_id other db
       ∧ memberships_of_room other db' = memberships_of_room other db)
  ∧ Room.name <$> DB.rooms db' = Room.name <$> DB.rooms db
  ∧ RoomMembership.id <$> DB.room_memberships db'
    = RoomMembership.id <$> DB.room_memberships db
  ∧ RoomMembership.user_id <$> DB.room_memberships db'
    = RoomMembership.user_id <$> DB.room_memberships db
  ∧ RoomMembership.room_id <$> DB.room_memberships db'
    = RoomMembership.room_id <$> DB.room_memberships db
  ∧ RoomMembership.joined_at <$> DB.room_memberships db'
    = RoomMembership.joined_at <$> DB.room_memberships db
  ∧ RoomMembership.left_at <$> DB.room_memberships db'
    = RoomMembership.left_at <$> DB.room_memberships db.
Proof.
  intros db'. subst db'. rewrite delete_room_cases.
  destruct (head (rooms_with_id room_id db)) as [room|]; [|by repeat split].
  destruct (decide (Room.creator_id room ≠ User.id current_user)); [by repeat split|].
  unfold deleted, deactivate_memberships_of_room, update_room,
    rooms_with_id, memberships_of_room. simpl.
  split; [done|]. split; [|repeat split].
  - intros other Hother. split.
    + apply filter_fmap_fixed; intros r; destruct (decide (Room.id r = room_id));
        try done; simpl; congruence.
    + apply filter_fmap_fixed; intros m;
        destruct (decide (RoomMembership.room_id m = room_id)); try done; simpl; congruence.
  - apply fmap_fmap_same. intros r. by destruct (decide (Room.id r = room_id)).
  - apply fmap_fmap_same. intros m. by destruct (decide (RoomMembership.room_id m = room_id)).
  - apply fmap_fmap_same. intros m. by destruct (decide (RoomMembership.room_id m = room_id)).
  - apply fmap_fmap_same. intros m. by destruct (decide (RoomMembership.room_id m = room_id)).
  - apply fmap_fmap_same. intros m. by destruct (decide (RoomMembership.room_id m = room_id)).
  - apply fmap_fmap_same. intros m. by destruct (decide (RoomMembership.room_id m = room_id)).
Qed.

Lemma list_rooms_cases (current_user : User.t) (db : DB.t) :
  list_rooms current_user db
  = (Return ((λ room, room_response room
                (Z.of_nat (length (active_memberships_of_room (Room.id room) db))))
             <$> active_rooms db), db).
Proof. reflexivity. Qed.

(** X8. [list_rooms] writes nothing and answers with one entry per active
    room row, in table order; after the creator has deleted a room, no
    entry of the listing carries its id. *)
Theorem list_rooms_hides_deleted (platform : Platform.t remote_room) (room_id : Z)
    (creator viewer : User.t) (db : DB.t) (r : Room.t) :
  head (rooms_with_id room_id db) = Some r →
  Room.creator_id r = User.id creator →
  let db' := (delete_room platform room_id creator db).2 in
  ∃ body,
    list_rooms viewer db' = (Return body, db')
    ∧ RoomResponse.id <$> body = Room.id <$> active_rooms db'
    ∧ ∀ entry, entry ∈ body →
        RoomResponse.is_active entry = true ∧ RoomResponse.id entry ≠ room_id.
Proof.
  intros Hroom Hcreator db'. subst db'.
  rewrite delete_room_cases, Hroom, decide_False by (by intros []). simpl.
  rewrite list_rooms_cases. eexists. split; [reflexivity|]. split.
  - rewrite <- list_fmap_compose. by apply list_fmap_ext.
  - intros entry Hentry. apply list_elem_of_fmap in Hentry as (room & -> & Hin).
    unfold active_rooms in Hin. apply list_elem_of_filter in Hin as [Hactive Hin].
    split; [done|]. simpl. intros Hid.
    pose proof (deleted_room_inactive room_id db room Hin Hid). congruence.
Qed.

(** X9. The [participant_count] of a listed room is the number of its
    active membership rows: a join by a user who has no active row in an
    active room raises the count of that room's entry by one. *)
Theorem list_rooms_counts_join (now room_id : Z) (current_user viewer : User.t)
    (db : DB.t) (r : Room.t) :
  head (rooms_with_id room_id db) = Some r →
  Room.is_active r = true →
  active_memberships_of (User.id current_user) room_id db = [] →
  let count := Z.of_nat (length (active_memberships_of_room room_id db)) in
  let db' := (join_room now room_id current_user db).2 in
  ∃ body body',
    list_rooms viewer db = (Return body, db)
    ∧ list_rooms viewer db' = (Return body', db')
    ∧ room_response r count ∈ body
    ∧ room_response r (count + 1) ∈ body'.
Proof.
  intros Hroom Hactive Hnone count db'. subst db' count.
  rewrite join_room_cases, Hroom. simpl. rewrite !list_rooms_cases.
  do 2 eexists. split; [reflexivity|]. split; [reflexivity|].
  apply rooms_with_id_head in Hroom as [Hid Hin].
  assert (Hlisted : r ∈ active_rooms db) by by apply list_elem_of_filter.
  split.
  - apply list_elem_of_fmap. exists r. by rewrite Hid.
  - apply list_elem_of_fmap. exists r. split.
    + rewrite Hid, joined_active_memberships_of_room, Hnone, length_app. simpl.
      f_equal. lia.
    + unfold active_rooms. by rewrite joined_rooms.
Qed.

(** The next key lies above every key in use. *)
Lemma next_id_fresh (ids : list Z) : next_id ids ∉ ids.
Proof.
  assert (Hmax : ∀ x, x ∈ ids → x ≤ foldr Z.max 0 ids).
  { induction ids as [|y ids IH]; intros x Hx; [by apply elem_of_nil in Hx|].
    simpl. apply elem_of_cons in Hx as [->|Hx]; [lia|]. specialize (IH x Hx). lia. }
  intros Hin. apply Hmax in Hin. unfold next_id in Hin. lia.
Qed.

Lemma not_elem_of_fmap_filter_nil {A B : Type} `{EqDecision B} (f : A → B) (b : B)
    (l : list A) :
  b ∉ f <$> l → filter (λ x, f x = b) l = [].
Proof.
  intros Hb. apply filter_none_nil. intros x Hx Hfx. apply Hb.
  apply list_elem_of_fmap. by exists x.
Qed.

Lemma head_filter_None_not_elem_of {A B : Type} `{EqDecision B} (f : A → B) (b : B)
    (l : list A) :
  head (filter (λ x, f x = b) l) = None → b ∉ f <$> l.
Proof.
  intros Hhd Hin. apply list_elem_of_fmap in Hin as (x & -> & Hx).
  by apply (proj1 (head_filter_None (λ y, f y = f x) l) Hhd x Hx).
Qed.

(** X10. A creation that passes the duplicate check can be looked up at
    once: the inserted row is the one found under the id of the answer and
    the only one found under its name; a join on that id is answered with
    a token for that name; and any later creation under the same name, by
    anyone, is rejected with 400. *)
Theorem create_room_then_lookup (platform platform' : Platform.t remote_room)
    (now now' now'' : Z) (room room' : RoomCreate.t) (current_user other joiner : User.t)
    (db : DB.t) :
  head (rooms_named (RoomCreate.name room) db) = None →
  RoomCreate.name room' = RoomCreate.name room →
  ∃ body db',
    create_room platform now room current_user db = (Return body, db')
    ∧ head (rooms_with_id (RoomResponse.id body) db')
      = Some (new_room now room current_user db)
    ∧ rooms_named (RoomCreate.name room) db' = [new_room now room current_user db]
    ∧ (∃ token db'',
         join_room now'' (RoomResponse.id body) joiner db' = (Return token, db'')
         ∧ TokenResponse.room_name token = RoomCreate.name room)
    ∧ create_room platform' now' room' other db'
      = (Raise (HTTPException 400 "Room with this name already exists"), db').
Proof.
  intros Hfree Hsame. do 2 eexists. rewrite create_room_cases, Hfree.
  split; [reflexivity|]. set (row := new_room now room current_user db).
  assert (Hbyid : rooms_with_id (Room.id row) (DB.mk (DB.users db) (DB.rooms db ++ [row])
                    (DB.room_memberships db)) = [row]).
  { unfold rooms_with_id. simpl. rewrite filter_app, filter_cons, filter_nil.
    rewrite decide_True by done.
    rewrite (not_elem_of_fmap_filter_nil Room.id); [done|]. apply next_id_fresh. }
  assert (Hbyname : rooms_named (RoomCreate.name room)
                      (DB.mk (DB.users db) (DB.rooms db ++ [row])
                         (DB.room_memberships db)) = [row]).
  { unfold rooms_named. simpl. rewrite filter_app, filter_cons, filter_nil.
    rewrite decide_True by done.
    rewrite (not_elem_of_fmap_filter_nil Room.name); [done|].
    by apply head_filter_None_not_elem_of. }
  change (RoomResponse.id (room_response row 0)) with (Room.id row).
  split; [by rewrite Hbyid|]. split; [done|]. split.
  - do 2 eexists. rewrite join_room_cases, Hbyid. split; reflexivity.
  - rewrite create_room_cases, Hsame, Hbyname. done.
Qed.

End Listing.

(** ** What every reachable store satisfies *)

Section Reachability.

(** The store a request leaves is the one it found, or one of five
    writes. *)
Lemma request_step_shape (db db' : DB.t) :
  request_step db db' →
  db' = db
  ∨ (∃ now user,
       head (users_with_email_or_username (UserCreate.email user)
               (UserCreate.username user) db) = None
       ∧ db' = DB.mk (DB.users db ++ [new_user now user db]) (DB.rooms db)
                     (DB.room_memberships db))
  ∨ (∃ now room current_user,
       head (rooms_named (RoomCreate.name room) db) = None
       ∧ db' = DB.mk (DB.users db) (DB.rooms db ++ [new_room now room current_user db])
                     (DB.room_memberships db))
  ∨ (∃ now user_id room_id,
       head (active_memberships_of user_id room_id db) = None
       ∧ db' = DB.mk (DB.users db) (DB.rooms db)
                 (DB.room_memberships db ++ [new_membership now user_id room_id db]))
  ∨ (∃ membership_id now,
       db' = update_membership membership_id
               (λ m, RoomMembership.set_left_at (Some now)
                       (RoomMembership.set_is_active false m)) db)
  ∨ (∃ room_id, db' = deleted room_id db).
Proof.
  intros [now user|platform now room current_user|current_user
         |platform room_id current_user|now room_id current_user
         |now room_id current_user|platform room_id current_user].
  - rewrite register_user_cases.
    destruct (head (users_with_email_or_username _ _ db)) eqn:Hhd; [by left|].
    right. left. eauto.
  - rewrite create_room_cases.
    destruct (head (rooms_named _ db)) eqn:Hhd; [by left|].
    right. right. left. eauto 6.
  - by left.
  - rewrite get_room_details_cases. left.
    destruct (head (rooms_with_id room_id db)) as [room|]; [|done].
    by destruct (LiveKitService.get_room_info platform livekit_service (Room.name room))
      as [[[ri [|p ps]]|]|e].
  - rewrite join_room_cases.
    destruct (head (rooms_with_id room_id db)); [|by left]. simpl. unfold joined.
    destruct (head (active_memberships_of (User.id current_user) room_id db)) eqn:Hhd;
      [by left|].
    right. right. right. left. eauto 6.
  - rewrite leave_room_cases. simpl. unfold departed.
    destruct (head (active_memberships_of (User.id current_user) room_id db));
      [|by left].
    right. right. right. right. left. eauto.
  - rewrite delete_room_cases.
    destruct (head (rooms_with_id room_id db)) as [room|]; [|by left].
    destruct (decide (Room.creator_id room ≠ User.id current_user)); [by left|].
    right. right. right. right. right. eauto.
Qed.

Lemma NoDup_fmap_snoc {A B : Type} (f : A → B) (l : list A) (x : A) :
  NoDup (f <$> l) → f x ∉ f <$> l → NoDup (f <$> (l ++ [x])).
Proof.
  intros Hl Hx. rewrite fmap_app. apply NoDup_app. split; [done|]. split.
  - intros y Hy Hyx. apply list_elem_of_singleton in Hyx. by subst.
  - apply NoDup_singleton.
Qed.

Lemma request_step_unique_keys (db db' : DB.t) :
  request_step db db' → unique_keys db → unique_keys db'.
Proof.
  intros Hstep (Huid & Huname & Huemail & Hrid & Hrname & Hmid).
  apply request_step_shape in Hstep
    as [->|[(now & user & Hfree & ->)|[(now & room & u & Hfree & ->)
       |[(now & uid & rid & _ & ->)|[(mid & now & ->)|[rid ->]]]]]];
    unfold unique_keys; simpl.
  - done.
  - assert (Hno := proj1 (head_filter_None _ _) Hfree).
    repeat split; try done.
    + apply NoDup_fmap_snoc; [done|]. apply next_id_fresh.
    + apply NoDup_fmap_snoc; [done|]. simpl. intros Hin.
      apply list_elem_of_fmap in Hin as (u & Hu & Hin). apply (Hno u Hin). by right.
    + apply NoDup_fmap_snoc; [done|]. simpl. intros Hin.
      apply list_elem_of_fmap in Hin as (u & Hu & Hin). apply (Hno u Hin). by left.
  - repeat split; try done.
    + apply NoDup_fmap_snoc; [done|]. apply next_id_fresh.
    + apply NoDup_fmap_snoc; [done|]. simpl.
      by apply head_filter_None_not_elem_of.
  - repeat split; try done.
    apply NoDup_fmap_snoc; [done|]. apply next_id_fresh.
  - repeat split; try done.
    rewrite fmap_fmap_same; [done|]. intros m.
    by destruct (decide (RoomMembership.id m = mid)).
  - repeat split; try done.
    + rewrite fmap_fmap_same; [done|]. intros r. by destruct (decide (Room.id r = rid)).
    + rewrite fmap_fmap_same; [done|]. intros r. by destruct (decide (Room.id r = rid)).
    + rewrite fmap_fmap_same; [done|]. intros m.
      by destruct (decide (RoomMembership.room_id m = rid)).
Qed.

Lemma request_step_at_most_one_active (db db' : DB.t) :
  request_step db db' → at_most_one_active db → at_most_one_active db'.
Proof.
  intros [now user|platform now room current_user|current_user
         |platform room_id current_user|now room_id current_user
         |now room_id current_user|platform room_id current_user] Hinv.
  - rewrite register_user_cases.
    by destruct (head (users_with_email_or_username _ _ db)).
  - rewrite create_room_cases. by destruct (head (rooms_named _ db)).
  - done.
  - rewrite get_room_details_cases.
    destruct (head (rooms_with_id room_id db)) as [room|]; [|done].
    by destruct (LiveKitService.get_room_info platform livekit_service (Room.name room))
      as [[[ri [|p ps]]|]|e].
  - rewrite join_room_cases.
    destruct (head (rooms_with_id room_id db)); [|done].
    by apply joined_at_most_one_active.
  - rewrite leave_room_cases. by apply departed_at_most_one_active.
  - rewrite delete_room_cases.
    destruct (head (rooms_with_id room_id db)) as [room|]; [|done].
    destruct (decide (Room.creator_id room ≠ User.id current_user)); [done|].
    by apply deleted_at_most_one_active.
Qed.

(** X11. Served in sequence from the empty store, the handlers never
    break a constraint the schema declares, and never leave a user with two
    active memberships in one room: in every reachable store the three
    primary keys, the usernames, the emails and the room names are free of
    duplicates, and each (user, room) pair has at most one active row. *)
Theorem reachable_well_formed (db : DB.t) :
  reachable db → unique_keys db ∧ at_most_one_active db.
Proof.
  intros Hreach. unfold reachable in Hreach.
  revert db Hreach. apply rtc_ind_r.
  - split; [|intros u r; simpl; lia].
    unfold unique_keys. simpl. repeat split; apply NoDup_nil_2.
  - intros db1 db2 _ Hstep [Hkeys Hinv]. split.
    + by apply (request_step_unique_keys db1).
    + by apply (request_step_at_most_one_active db1).
Qed.

Lemma history_kept_refl (db : DB.t) : history_kept db db.
Proof. split; [done|]. split; intros i x Hx; exists x; by repeat split. Qed.

Lemma history_kept_trans (db1 db2 db3 : DB.t) :
  history_kept db1 db2 → history_kept db2 db3 → history_kept db1 db3.
Proof.
  intros (Hu12 & Hr12 & Hm12) (Hu23 & Hr23 & Hm23). split; [by etrans|]. split.
  - intros i r Hr.
    destruct (Hr12 i r Hr) as (r2 & Hr2 & Hid & Hname & Hcreator & Hoff).
    destruct (Hr23 i r2 Hr2) as (r3 & Hr3 & Hid' & Hname' & Hcreator' & Hoff').
    exists r3. repeat split; [done|congruence..|auto].
  - intros i m Hm.
    destruct (Hm12 i m Hm) as (m2 & Hm2 & Hid & Huser & Hroom & Hjoined & Hoff).
    destruct (Hm23 i m2 Hm2) as (m3 & Hm3 & Hid' & Huser' & Hroom' & Hjoined' & Hoff').
    exists m3. repeat split; [done|congruence..|auto].
Qed.

Lemma request_step_history_kept (db db' : DB.t) :
  request_step db db' → history_kept db db'.
Proof.
  intros Hstep.
  apply request_step_shape in Hstep
    as [->|[(now & user & _ & ->)|[(now & room & u & _ & ->)
       |[(now & uid & rid & _ & ->)|[(mid & now & ->)|[rid ->]]]]]];
    unfold history_kept; simpl.
  - apply history_kept_refl.
  - split; [by apply prefix_app_r|].
    split; intros i x Hx; exists x; by repeat split.
  - split; [done|]. split; intros i x Hx; exists x; repeat split; try done.
    by apply lookup_app_l_Some.
  - split; [done|]. split; intros i x Hx; exists x; repeat split; try done.
    by apply lookup_app_l_Some.
  - split; [done|]. split; intros i x Hx.
    + exists x. by repeat split.
    + eexists. rewrite list_lookup_fmap, Hx. simpl. split; [reflexivity|].
      destruct (decide (RoomMembership.id x = mid)); by repeat split.
  - split; [done|]. split; intros i x Hx.
    + eexists. rewrite list_lookup_fmap, Hx. simpl. split; [reflexivity|].
      destruct (decide (Room.id x = rid)); by repeat split.
    + eexists. rewrite list_lookup_fmap, Hx. simpl. split; [reflexivity|].
      destruct (decide (RoomMembership.room_id x = rid)); by repeat split.
Qed.

(** X12. Deletion is soft and history is kept: across any sequence of
    requests no account, room or membership row is removed or moved; an
    account row is never modified; a room keeps its id, name and creator
    and a membership its id, user, room and join instant; and a room or
    membership that is inactive is never made active again. *)
Theorem requests_keep_history (db db' : DB.t) :
  rtc request_step db db' → history_kept db db'.
Proof.
  intros Hsteps. induction Hsteps as [db|db1 db2 db3 Hstep _ IH].
  - apply history_kept_refl.
  - apply (history_kept_trans db1 db2); [|done]. by apply request_step_history_kept.
Qed.

End Reachability.

(** ** Tokens: what a join hands out *)

Section Tokens.
Context (verify : string → jwt → option Claims.t).
Hypothesis verify_to_jwt : ∀ key secret claims,
  verify secret (to_jwt (AccessToken.mk (Some key) (Some secret) claims)) = Some claims.

(** X2. The token a successful join answers with verifies to the decimal
    user id as identity, the username as name when it is not empty, the
    metadata ["user_id:<id>"] always, and a join grant for the name of the
    room row found under the requested id; the body repeats that room name
    and that identity. *)
Theorem join_room_token_claims (key secret : string) (now room_id : Z)
    (current_user : User.t) (db db' : DB.t) (body : TokenResponse.t jwt) :
  LiveKitService.api_key livekit_service = Some key →
  LiveKitService.api_secret livekit_service = Some secret →
  join_room now room_id current_user db = (Return body, db') →
  ∃ room,
    head (rooms_with_id room_id db) = Some room
    ∧ verify secret (TokenResponse.token body)
      = Some (Claims.mk (Some (pretty (User.id current_user)))
                        (supplied (Some (User.username current_user)))
                        (Some ("user_id:" +:+ pretty (User.id current_user)))
                        (Some (join_grants (Room.name room))))
    ∧ TokenResponse.room_name body = Room.name room
    ∧ TokenResponse.participant_identity body = pretty (User.id current_user).
Proof.
  intros Hkey Hsecret. rewrite join_room_cases.
  destruct (head (rooms_with_id room_id db)) as [room|]; [|done].
  intros [= <- _]. exists room. split; [done|]. split; [|done].
  unfold join_response. simpl.
  rewrite create_access_token_unfold, Hkey, Hsecret, verify_to_jwt.
  reflexivity.
Qed.

End Tokens.

(** X3. Participant identities do not collide: two successful joins, in
    any rooms and stores, answer with the same [participant_identity] only
    when the two users have the same id. *)
Theorem join_room_identity_injective (now1 now2 room1 room2 : Z) (user1 user2 : User.t)
    (db1 db2 db1' db2' : DB.t) (body1 body2 : TokenResponse.t jwt) :
  join_room now1 room1 user1 db1 = (Return body1, db1') →
  join_room now2 room2 user2 db2 = (Return body2, db2') →
  TokenResponse.participant_identity body1 = TokenResponse.participant_identity body2 →
  User.id user1 = User.id user2.
Proof.
  rewrite !join_room_cases.
  destruct (head (rooms_with_id room1 db1)) as [r1|]; [|done].
  destruct (head (rooms_with_id room2 db2)) as [r2|]; [|done].
  intros [= <- _] [= <- _]. simpl. apply pretty_Z_inj.
Qed.

(** X13. When the platform answers both calls, [get_room_details] reports
    the platform's participants, one entry each with its number of tracks,
    and their number as [participant_count]; the local membership rows
    play no part, and the store is left as it is. *)
Theorem get_room_details_lists_platform (platform : Platform.t remote_room) (room_id : Z)
    (current_user : User.t) (db : DB.t) (room : Room.t) (info : remote_room)
    (ps : list ParticipantInfo.t) :
  head (rooms_with_id room_id db) = Some room →
  Platform.get_room platform (Room.name room) = Return info →
  Platform.list_participants platform (Room.name room) = Return ps →
  ∃ body,
    get_room_details platform room_id current_user db = (Return body, db)
    ∧ RoomResponse.participant_count (RoomWithParticipants.room body)
      = Some (Z.of_nat (length ps))
    ∧ RoomParticipant.identity <$> RoomWithParticipants.participants body
      = ParticipantInfo.identity <$> ps
    ∧ RoomParticipant.num_tracks <$> RoomWithParticipants.participants body
      = (λ p, Z.of_nat (length (ParticipantInfo.tracks p))) <$> ps
    ∧ RoomParticipant.permission <$> RoomWithParticipants.participants body
      = ParticipantInfo.permission <$> ps.
Proof.
  intros Hroom Hinfo Hps. rewrite get_room_details_cases, Hroom.
  unfold LiveKitService.get_room_info, try_except, mbind, result_bind, mret, result_ret.
  rewrite Hinfo, Hps. destruct ps as [|p ps]; eexists; (split; [reflexivity|]).
  - by repeat split.
  - simpl. repeat split; f_equal; rewrite <- list_fmap_compose; by apply list_fmap_ext.
Qed.

(** ** What a join and a leave leave alone *)

Section Frames.

(** X14. Whatever it answers, [join_room] leaves the accounts and the
    rooms as they are, keeps every membership row in place (at most one
    row is appended), and changes the active rows of no other (user, room)
    pair. *)
Theorem join_room_frame (now room_id : Z) (current_user : User.t) (db : DB.t) :
  let db' := (join_room now room_id current_user db).2 in
  DB.users db' = DB.users db
  ∧ DB.rooms db' = DB.rooms db
  ∧ DB.room_memberships db `prefix_of` DB.room_memberships db'
  ∧ (length (DB.room_memberships db') ≤ S (length (DB.room_memberships db)))%nat
  ∧ ∀ u r, ¬ (u = User.id current_user ∧ r = room_id) →
      active_memberships_of u r db' = active_memberships_of u r db.
Proof.
  intros db'. subst db'. rewrite join_room_cases.
  destruct (head (rooms_with_id room_id db)); simpl;
    [|split; [done|]; split; [done|]; split; [done|]; split; [lia|done]].
  split; [|split; [|split; [|split]]].
  - unfold joined. by destruct (head (active_memberships_of _ _ db)).
  - apply joined_rooms.
  - unfold joined. destruct (head (active_memberships_of _ _ db)); [done|].
    simpl. by apply prefix_app_r.
  - unfold joined. destruct (head (active_memberships_of _ _ db)); [lia|].
    simpl. rewrite length_app. simpl. lia.
  - intros u r Hother. rewrite joined_active_memberships_of. by rewrite decide_False.
Qed.

(** An update that, on the rows of the table, fixes the matches of [P]
    and creates none leaves the answer of the query on [P] as it is. *)
Lemma filter_fmap_fixed_on {A : Type} (P : A → Prop) `{!∀ x, Decision (P x)}
    (g : A → A) (l : list A) :
  (∀ x, x ∈ l → (P x → g x = x) ∧ (P (g x) → P x)) →
  filter P (g <$> l) = filter P l.
Proof.
  intros Hg. induction l as [|x l IH]; [done|].
  rewrite fmap_cons, !filter_cons.
  destruct (Hg x) as [Hfix Hback]; [left|].
  rewrite IH by (intros y Hy; apply Hg; by right).
  destruct (decide (P x)) as [HP|HP].
  - by rewrite (Hfix HP), decide_True.
  - rewrite decide_False; [done|]. intros HPg. by apply HP, Hback.
Qed.

(** Rows with distinct keys are told apart by their key. *)
Lemma NoDup_fmap_elem_inj {A B : Type} (f : A → B) (l : list A) (x y : A) :
  NoDup (f <$> l) → x ∈ l → y ∈ l → f x = f y → x = y.
Proof.
  intros Hnd Hx Hy Hf.
  apply list_elem_of_lookup in Hx as [i Hi]. apply list_elem_of_lookup in Hy as [j Hj].
  assert (i = j) as ->.
  { apply (NoDup_lookup (f <$> l) i j (f x)); [done|..].
    - by rewrite list_lookup_fmap, Hi.
    - by rewrite list_lookup_fmap, Hj, Hf. }
  congruence.
Qed.

(** Switching one row off takes exactly that row out of a query it
    matched. *)
Lemma filter_switch_off_length {A : Type} (P : A → Prop) `{!∀ x, Decision (P x)}
    (g : A → A) (l : list A) (m : A) :
  (∀ x, x ∈ l → x ≠ m → g x = x) → ¬ P (g m) → P m → NoDup l → m ∈ l →
  S (length (filter P (g <$> l))) = length (filter P l).
Proof.
  intros Hfix Hoff HPm Hnd Hm. induction l as [|x l IH]; [by apply elem_of_nil in Hm|].
  apply NoDup_cons in Hnd as [Hx Hnd]. rewrite fmap_cons, !filter_cons.
  apply elem_of_cons in Hm as [->|Hm].
  - rewrite decide_False, decide_True by done. simpl. f_equal.
    rewrite (filter_fmap_fixed_on P g l); [done|].
    intros y Hy. rewrite (Hfix y); [done|by right|]. by intros ->.
  - assert (Hxm : x ≠ m) by (by intros ->).
    rewrite (Hfix x) by (done || left).
    destruct (decide (P x)); simpl; [f_equal|];
      apply IH; try done; intros y Hy; apply Hfix; by right.
Qed.

(** X1. In a store whose membership keys are distinct and that has at
    most one active row per pair, a leave by a member lowers the number of
    active rows of the room by exactly one, and a leave, by a member or
    not, changes the active rows of no other (user, room) pair. *)
Theorem leave_room_frame (now room_id : Z) (current_user : User.t) (db : DB.t) :
  NoDup (RoomMembership.id <$> DB.room_memberships db) →
  at_most_one_active db →
  let db' := (leave_room now room_id current_user db).2 in
  (∀ u r, ¬ (u = User.id current_user ∧ r = room_id) →
     active_memberships_of u r db' = active_memberships_of u r db)
  ∧ (∀ m, head (active_memberships_of (User.id current_user) room_id db) = Some m →
       S (length (active_memberships_of_room room_id db'))
       = length (active_memberships_of_room room_id db)).
Proof.
  intros Hkeys Hinv db'. subst db'. rewrite leave_room_cases. simpl. unfold departed.
  destruct (head (active_memberships_of (User.id current_user) room_id db))
    as [m|] eqn:Hm; [|by split].
  unfold active_memberships_of in Hm.
  apply (head_filter_elem _) in Hm as [(Huser & Hroom & Hactive) Hin].
  assert (Honly : ∀ x, x ∈ DB.room_memberships db →
            RoomMembership.id x = RoomMembership.id m → x = m).
  { intros x Hx Hid.
    by apply (NoDup_fmap_elem_inj RoomMembership.id (DB.room_memberships db)). }
  split.
  - intros u r Hother. unfold active_memberships_of, update_membership. simpl.
    apply filter_fmap_fixed_on. intros x Hx.
    destruct (decide (RoomMembership.id x = RoomMembership.id m)) as [Hid|Hid].
    + rewrite (Honly x Hx Hid). simpl. split.
      * intros (Hu & Hr & _). destruct Hother. by rewrite <- Hu, <- Hr.
      * by intros (_ & _ & ?).
    + done.
  - intros m' [= <-]. unfold active_memberships_of_room, update_membership. simpl.
    apply (filter_switch_off_length _ _ _ m); try done.
    + intros x Hx Hxm. rewrite decide_False; [done|]. intros Hid. by apply Hxm, Honly.
    + rewrite decide_True by done. simpl. by intros [_ ?].
    + by apply (NoDup_fmap_1 RoomMembership.id).
Qed.

End Frames.

End Handlers.

(** ** Construction of the signer, and signing after it *)

Section Construction.
(** [AccessToken.to_jwt] as a call that may raise. *)
Context {token : Type} (sign : AccessToken.t → result token).
(** Modelled from the spec: the SDK's signer is not under src/, and of it
    the spec says that signing cannot fail with valid secrets; here, with a
    key and a secret that are both non-empty strings. *)
Hypothesis sign_with_secrets : ∀ key secret claims,
  key ≠ "" → secret ≠ "" →
  ∃ t, sign (AccessToken.mk (Some key) (Some secret) claims) = Return t.


End Construction.

(** * The properties on the concrete deployment *)

Lemma reference_verify_to_jwt (key secret : string) (claims : Claims.t) :
  Reference.verify secret
    (Reference.to_jwt (AccessToken.mk (Some key) (Some secret) claims)) = Some claims.
Proof. unfold Reference.verify, Reference.to_jwt. simpl. by rewrite String.eqb_refl. Qed.

Lemma create_access_token_decodes_witness :
  LiveKitService.api_key Scenario.service = Some "devkey"
  ∧ LiveKitService.api_secret Scenario.service = Some "secret"
  ∧ ∃ g : VideoGrants.t,
      Reference.verify "secret"
        (LiveKitService.create_access_token Reference.to_jwt Scenario.service
           "standup" "1" (Some "alice") (Some ""))
      = Some (Claims.mk (Some "1") (Some "alice") None (Some g))
      ∧ VideoGrants.room g = Some "standup"
      ∧ VideoGrants.room_join g = Some true
      ∧ VideoGrants.grants (VideoGrants.room_admin g) = false.
Proof.
  split; [reflexivity|]. split; [reflexivity|].
  destruct (create_access_token_decodes Reference.to_jwt Reference.verify
              reference_verify_to_jwt Scenario.service "devkey" "secret"
              "standup" "1" (Some "alice") (Some "") eq_refl eq_refl)
    as (g & Hclaims & Hroom & Hjoin & _ & _ & _ & _ & _ & Hadmin).
  exists g. repeat split; assumption.
Defined.

Lemma delete_room_cascades_witness :
  head (rooms_with_id 1 Scenario.db_full) = Some Scenario.standup
  ∧ Room.creator_id Scenario.standup = User.id Scenario.alice
  ∧ ∃ db',
      delete_room Scenario.service Scenario.platform_down 1 Scenario.alice
        Scenario.db_full = (Return "Room deleted successfully", db')
      ∧ (∀ m, m ∈ DB.room_memberships db' → RoomMembership.room_id m = 1 →
              RoomMembership.is_active m = false)
      ∧ delete_room Scenario.service Scenario.platform_down 1 Scenario.alice db'
        = (Return "Room deleted successfully", db').
Proof.
  split; [reflexivity|]. split; [reflexivity|].
  destruct (delete_room_cascades Scenario.service Scenario.platform_down
              Scenario.platform_down 1 Scenario.alice Scenario.db_full Scenario.standup
              eq_refl eq_refl)
    as (db' & Hret & _ & _ & Hmem & _ & Hagain).
  exists db'. repeat split; assumption.
Defined.

Lemma join_room_keeps_one_active_witness :
  at_most_one_active Scenario.db_created
  ∧ let db1 := (join_room Reference.to_jwt Scenario.service 20 1 Scenario.alice
                  Scenario.db_created).2 in
    let db2 := (join_room Reference.to_jwt Scenario.service 21 1 Scenario.alice db1).2 in
    at_most_one_active db1 ∧ db2 = db1.
Proof.
  assert (Hinv : at_most_one_active Scenario.db_created).
  { intros u r. simpl. lia. }
  split; [exact Hinv|].
  destruct (join_room_keeps_one_active Reference.to_jwt Scenario.service 20 21 1
              Scenario.alice Scenario.db_created Hinv) as (Hinv1 & _ & Hsame & _).
  split; assumption.
Defined.

Lemma delete_room_by_other_rejected_witness :
  head (rooms_with_id 1 Scenario.db_full) = Some Scenario.standup
  ∧ Room.creator_id Scenario.standup = User.id Scenario.alice
  ∧ User.id Scenario.bob ≠ User.id Scenario.alice
  ∧ delete_room Scenario.service Scenario.platform_down 1 Scenario.bob Scenario.db_full
    = (Raise (HTTPException 403 "Only room creator can delete the room"),
       Scenario.db_full).
Proof.
  assert (Hother : User.id Scenario.bob ≠ User.id Scenario.alice) by (simpl; lia).
  split; [reflexivity|]. split; [reflexivity|]. split; [exact Hother|].
  exact (delete_room_by_other_rejected Scenario.service Scenario.platform_down 1
           Scenario.alice Scenario.bob Scenario.db_full Scenario.standup
           eq_refl eq_refl Hother).
Defined.

Lemma gateway_failures_absorbed_witness :
  LiveKitService.get_room_info Scenario.platform_down Scenario.service "standup"
    = Return None
  ∧ get_room_details Scenario.service Scenario.platform_down 1 Scenario.bob
      Scenario.db_full
    = (Return (RoomWithParticipants.mk (room_response Scenario.standup 0) []),
       Scenario.db_full).
Proof.
  destruct (gateway_failures_absorbed Scenario.service Scenario.platform_down)
    as (Hgateway & Hdetails & _ & _).
  destruct (Hgateway "standup" None) as (_ & _ & _ & Hinfo & _).
  assert (Hnone : LiveKitService.get_room_info Scenario.platform_down Scenario.service
                    "standup" = Return None)
    by exact (Hinfo (Exception "connection refused") eq_refl).
  split; [exact Hnone|].
  exact (proj2 (Hdetails 1 Scenario.bob Scenario.db_full Scenario.standup eq_refl) Hnone).
Defined.

Lemma register_user_rejects_duplicate_witness :
  let first := UserCreate.mk "carol" "carol@example.org" "pw1" in
  let second := UserCreate.mk "caroline" "carol@example.org" "pw2" in
  ∃ body db1,
    register_user Reference.get_password_hash 30 first Scenario.db_created
      = (Return body, db1)
    ∧ register_user Reference.get_password_hash 31 second db1
      = (Raise (HTTPException 400 "User with this email or username already exists"),
         db1)
    ∧ length (users_with_email "carol@example.org" db1) = 1%nat
    ∧ length (users_with_username "carol" db1) = 1%nat.
Proof.
  intros first second.
  apply (register_user_rejects_duplicate Reference.get_password_hash 30 31 first second
           Scenario.db_created).
  - intros u Hu. simpl in Hu.
    apply elem_of_cons in Hu as [->|Hu]; [by split|].
    apply elem_of_cons in Hu as [->|Hu]; [by split|].
    by apply elem_of_nil in Hu.
  - left. reflexivity.
Defined.

Lemma create_room_rejects_deleted_name_witness :
  Room.set_is_active false Scenario.standup ∈ DB.rooms Scenario.db_deleted
  ∧ create_room Scenario.service Scenario.platform_down 40
      (RoomCreate.mk "standup" "Standup again" None (Some 50)) Scenario.bob
      Scenario.db_deleted
    = (Raise (HTTPException 400 "Room with this name already exists"),
       Scenario.db_deleted).
Proof.
  assert (Hin : Room.set_is_active false Scenario.standup ∈ DB.rooms Scenario.db_deleted)
    by left.
  split; [exact Hin|].
  exact (create_room_rejects_deleted_name Scenario.service Scenario.platform_down 40
           (RoomCreate.mk "standup" "Standup again" None (Some 50)) Scenario.bob
           Scenario.db_deleted (Room.set_is_active false Scenario.standup)
           Hin eq_refl eq_refl).
Defined.

Lemma join_room_ignores_max_participants_witness :
  head (rooms_with_id 1 Scenario.db_full) = Some Scenario.standup
  ∧ Room.max_participants Scenario.standup = Some 1
  ∧ ∃ db',
      join_room Reference.to_jwt Scenario.service 50 1 Scenario.bob Scenario.db_full
        = (Return (join_response Reference.to_jwt Scenario.service
                     Scenario.standup Scenario.bob), db')
      ∧ 1 < Z.of_nat (length (active_memberships_of_room 1 db')).
Proof.
  split; [reflexivity|]. split; [reflexivity|].
  destruct (join_room_ignores_max_participants Reference.to_jwt Scenario.service 50 1
              Scenario.bob Scenario.db_full Scenario.standup eq_refl)
    as (db' & Hret & _ & Hcount).
  exists db'. split; [exact Hret|].
  destruct (Hcount eq_refl) as [_ Hbound].
  apply (Hbound 1 eq_refl). simpl. lia.
Defined.

(** C4 (what the code does). Alice deletes her room while the platform is
    unreachable; Bob then asks to join it.  The room row is inactive, yet
    the request is answered with a token for the room instead of a 404,
    and an active membership row is inserted. *)
Theorem join_room_after_delete_issues_token :
  let db' := (delete_room Scenario.service Scenario.platform_down 1 Scenario.alice
                Scenario.db_full).2 in
  db' = Scenario.db_deleted
  ∧ (Room.is_active <$> head (rooms_with_id 1 db')) = Some false
  ∧ join_room Reference.to_jwt Scenario.service 50 1 Scenario.bob db'
    = (Return (join_response Reference.to_jwt Scenario.service
                 (Room.set_is_active false Scenario.standup) Scenario.bob),
       DB.mk (DB.users db') (DB.rooms db')
             (DB.room_memberships db' ++ [RoomMembership.mk 2 2 1 50 None true]))
  ∧ (join_room Reference.to_jwt Scenario.service 50 1 Scenario.bob db').1
    ≠ Raise (HTTPException 404 "Room not found").
Proof.
  intros db'.
  assert (Hjoin := join_room_after_delete Reference.to_jwt Scenario.service
                     Scenario.platform_down 50 1 Scenario.alice Scenario.bob
                     Scenario.db_full Scenario.standup eq_refl eq_refl).
  cbv zeta in Hjoin. fold db' in Hjoin.
  split; [reflexivity|]. split; [reflexivity|]. split.
  - rewrite Hjoin. reflexivity.
  - rewrite Hjoin. discriminate.
Qed.

(** * The further properties on the concrete deployment *)

Lemma db_full_at_most_one_active : at_most_one_active Scenario.db_full.
Proof.
  intros u r. unfold active_memberships_of. simpl. rewrite filter_cons, filter_nil.
  destruct (decide _); simpl; lia.
Qed.

Lemma join_room_token_claims_witness :
  ∃ room,
    head (rooms_with_id 1 Scenario.db_full) = Some room
    ∧ Reference.verify "secret"
        (TokenResponse.token
           (join_response Reference.to_jwt Scenario.service Scenario.standup Scenario.bob))
      = Some (Claims.mk (Some "2") (Some "bob") (Some "user_id:2")
                        (Some (join_grants (Room.name room)))).
Proof.
  destruct (join_room_token_claims Reference.to_jwt Scenario.service Reference.verify
              reference_verify_to_jwt "devkey" "secret" 50 1 Scenario.bob
              Scenario.db_full _ _ eq_refl eq_refl eq_refl)
    as (room & Hroom & Hclaims & _).
  exists room. split; assumption.
Defined.

Lemma join_room_identity_injective_witness :
  User.id Scenario.bob = User.id Scenario.bob.
Proof.
  exact (join_room_identity_injective Reference.to_jwt Scenario.service 50 51 1 1
           Scenario.bob Scenario.bob Scenario.db_full Scenario.db_created _ _ _ _
           eq_refl eq_refl eq_refl).
Defined.

Lemma unknown_room_not_found_witness :
  join_room Reference.to_jwt Scenario.service 50 7 Scenario.bob Scenario.db_full
  = (Raise (HTTPException 404 "Room not found"), Scenario.db_full).
Proof.
  apply (unknown_room_not_found Reference.to_jwt Scenario.service
           Scenario.platform_down 50 7 Scenario.bob Scenario.db_full).
  intros r Hr. simpl in Hr. apply list_elem_of_singleton in Hr as ->. simpl. lia.
Defined.

Lemma leave_room_deactivates_witness :
  at_most_one_active Scenario.db_full
  ∧ ∃ db',
      leave_room 60 1 Scenario.alice Scenario.db_full
        = (Return "Left room successfully", db')
      ∧ RoomMembership.mk 1 1 1 20 (Some 60) false ∈ DB.room_memberships db'
      ∧ active_memberships_of 1 1 db' = [].
Proof.
  split; [exact db_full_at_most_one_active|].
  destruct (leave_room_deactivates 60 1 Scenario.alice Scenario.db_full
              db_full_at_most_one_active)
    as (db' & Hret & _ & Hrow & Hnone & _).
  exists db'. split; [exact Hret|]. split; [|exact Hnone].
  exact (Hrow (RoomMembership.mk 1 1 1 20 None true) eq_refl).
Defined.

Lemma leave_then_join_appends_witness :
  let db1 := (leave_room 60 1 Scenario.alice Scenario.db_full).2 in
  let db2 := (join_room Reference.to_jwt Scenario.service 70 1 Scenario.alice db1).2 in
  length (DB.room_memberships db2) = 2%nat
  ∧ active_memberships_of 1 1 db2 = [RoomMembership.mk 2 1 1 70 None true].
Proof.
  destruct (leave_then_join_appends Reference.to_jwt Scenario.service 60 70 1
              Scenario.alice Scenario.db_full Scenario.standup
              db_full_at_most_one_active eq_refl)
    as (_ & Hlen & Hactive).
  split; [exact Hlen | exact Hactive].
Defined.

Lemma list_rooms_hides_deleted_witness :
  let db' := (delete_room Scenario.service Scenario.platform_down 1 Scenario.alice
                Scenario.db_full).2 in
  ∃ body,
    list_rooms Scenario.bob db' = (Return body, db')
    ∧ ∀ entry, entry ∈ body → RoomResponse.id entry ≠ 1.
Proof.
  destruct (list_rooms_hides_deleted Scenario.service Scenario.platform_down 1
              Scenario.alice Scenario.bob Scenario.db_full Scenario.standup
              eq_refl eq_refl)
    as (body & Hret & _ & Hentries).
  exists body. split; [exact Hret|]. intros entry Hentry.
  exact (proj2 (Hentries entry Hentry)).
Defined.

Lemma list_rooms_counts_join_witness :
  let db' := (join_room Reference.to_jwt Scenario.service 50 1 Scenario.bob
                Scenario.db_full).2 in
  ∃ body body',
    list_rooms Scenario.alice Scenario.db_full = (Return body, Scenario.db_full)
    ∧ list_rooms Scenario.alice db' = (Return body', db')
    ∧ room_response Scenario.standup 1 ∈ body
    ∧ room_response Scenario.standup 2 ∈ body'.
Proof.
  exact (list_rooms_counts_join Reference.to_jwt Scenario.service 50 1 Scenario.bob
           Scenario.alice Scenario.db_full Scenario.standup eq_refl eq_refl eq_refl).
Defined.

Lemma create_room_then_lookup_witness :
  ∃ body db',
    create_room Scenario.service Scenario.platform_down 80 Live.retro Scenario.bob
      Scenario.db_created = (Return body, db')
    ∧ RoomResponse.id body = 2
    ∧ rooms_named "retro" db' = [new_room 80 Live.retro Scenario.bob Scenario.db_created]
    ∧ create_room Scenario.service Live.platform 81 Live.retro Scenario.alice db'
      = (Raise (HTTPException 400 "Room with this name already exists"), db').
Proof.
  destruct (create_room_then_lookup Reference.to_jwt Scenario.service
              Scenario.platform_down Live.platform 80 81 82 Live.retro Live.retro
              Scenario.bob Scenario.alice Scenario.alice Scenario.db_created
              eq_refl eq_refl)
    as (body & db' & Hret & _ & Hname & _ & Hagain).
  exists body, db'. split; [exact Hret|]. split; [|split; [exact Hname | exact Hagain]].
  injection Hret as <- _. reflexivity.
Defined.

Lemma reachable_well_formed_witness :
  let db := (register_user Reference.get_password_hash 1 Live.carol DB.empty).2 in
  reachable Reference.get_password_hash Reference.to_jwt (remote_room := unit)
    Scenario.service db
  ∧ unique_keys db ∧ at_most_one_active db.
Proof.
  intros db.
  assert (Hreach : reachable Reference.get_password_hash Reference.to_jwt
                     (remote_room := unit) Scenario.service db).
  { apply rtc_once. apply step_register_user. }
  split; [exact Hreach|].
  exact (reachable_well_formed Reference.get_password_hash Reference.to_jwt
           Scenario.service db Hreach).
Defined.

Lemma requests_keep_history_witness :
  history_kept Scenario.db_full
    (delete_room Scenario.service Scenario.platform_down 1 Scenario.alice
       Scenario.db_full).2.
Proof.
  apply (requests_keep_history Reference.get_password_hash Reference.to_jwt
           (remote_room := unit) Scenario.service).
  apply rtc_once. apply step_delete_room.
Defined.

Lemma get_room_details_lists_platform_witness :
  ∃ body,
    get_room_details Scenario.service Live.platform 1 Scenario.alice Scenario.db_created
      = (Return body, Scenario.db_created)
    ∧ RoomResponse.participant_count (RoomWithParticipants.room body) = Some 1
    ∧ RoomParticipant.num_tracks <$> RoomWithParticipants.participants body = [2].
Proof.
  destruct (get_room_details_lists_platform Scenario.service Live.platform 1
              Scenario.alice Scenario.db_created Scenario.standup tt
              [Live.bob_connected] eq_refl eq_refl eq_refl)
    as (body & Hret & Hcount & _ & Htracks & _).
  exists body. split; [exact Hret|]. split; [exact Hcount | exact Htracks].
Defined.

Lemma leave_room_frame_witness :
  let db' := (leave_room 60 1 Scenario.alice Scenario.db_full).2 in
  S (length (active_memberships_of_room 1 db'))
  = length (active_memberships_of_room 1 Scenario.db_full).
Proof.
  assert (Hkeys : NoDup (RoomMembership.id <$> DB.room_memberships Scenario.db_full))
    by apply NoDup_singleton.
  destruct (leave_room_frame 60 1 Scenario.alice Scenario.db_full Hkeys
              db_full_at_most_one_active) as [_ Hcount].
  exact (Hcount (RoomMembership.mk 1 1 1 20 None true) eq_refl).
Defined.

(** * Construction on concrete environments *)



